(** * The test harness of the Vercel AI SDK + Azure AI Foundry starter kit

    A shallow embedding of the two entry scripts of the repository,
    [index.ts] (the starter kit, six tests) and [index_with_flux.ts] (the
    enhanced suite, eight tests), and of the harness they share:
    [divider], [runTest] and the loop and summary of [main].

    The scripts are TypeScript run by bun or tsx.  What they do is print to
    the console, call into the AI SDK, throw and catch JavaScript values and
    leave the process.  The embedding keeps exactly these effects: a
    computation is the list of events it emits together with the way it
    ends. *)

From stdpp Require Import base strings gmap list pretty.

Open Scope string_scope.
Open Scope list_scope.

(** ** JavaScript values and control effects *)

Module Js.

(** The values the harness handles: what a test may throw, and what is
    handed to [console.log].  [VError name message cause] is an instance
    of [Error] (or of a subclass called [name]) whose name and message
    are strings; [cause] is [VUndefined] when the error carries none.

    This is a part of the values of JavaScript, not all of them.  Symbols,
    objects without a prototype and objects whose accessors throw are
    not represented: on those the catch block of [runTest] throws as
    well, as it does on [undefined] and [null].  What is proved of the
    values other than [undefined] and [null] is proved of the values of
    this type only. *)
#[warnings="-register-all"] Inductive value : Type :=
| VUndefined
| VNull
| VBool (b : bool)
| VStr (s : string)
| VArray (items : list value)
| VError (name message : string) (cause : value).

(** ToBoolean. *)
Definition truthy (v : value) : bool :=
  match v with
  | VUndefined | VNull => false
  | VBool b => b
  | VStr s => negb (String.eqb s "")
  | VArray _ | VError _ _ _ => true
  end.

(** ToString, as a template literal applies it.  For an error this is
    [Error.prototype.toString]. *)
Fixpoint to_string (v : value) : string :=
  match v with
  | VUndefined => "undefined"
  | VNull => "null"
  | VBool true => "true"
  | VBool false => "false"
  | VStr s => s
  | VArray items =>
      String.concat ","
        (map (λ i, match i with
                   | VUndefined | VNull => ""
                   | _ => to_string i
                   end) items)
  | VError name message _ =>
      if String.eqb name "" then message
      else if String.eqb message "" then name
      else name +:+ ": " +:+ message
  end.

Inductive stream : Type := Out | Err.

(** A request handed to the remote inference service. *)
Inductive provider : Type :=
| AzureFoundry        (* azureFoundry(model) *)
| AzureViaOpenAI      (* azureViaOpenAI.chat(model) *)
| AzureOpenAICompat.  (* azureOpenAICompat.chatModel(model) *)

Record message : Type := Message { role : string; content : string }.

Inductive input : Type :=
| Prompt (prompt : string)
| Messages (messages : list message).

Record request : Type :=
  Request { via : provider; model : string; ask : input }.

(** What a run leaves behind, in order. *)
Inductive event : Type :=
| Console (s : stream) (args : list value)  (* console.log / console.error *)
| StdoutWrite (chunk : string)                    (* process.stdout.write *)
| Remote (r : request)                      (* a call to the remote service *)
| Tool (tool : string) (input : gmap string value).
                                            (* a tool callback run locally *)

(** How a computation ends. *)
Inductive outcome (A : Type) : Type :=
| Returned (a : A)      (* normal completion; the promise is fulfilled *)
| Raised (err : value)  (* a throw; the promise is rejected *)
| Exited (code : Z)     (* process.exit(code) *)
| Stuck.                (* awaits a promise that never settles *)
Arguments Returned {A} a.
Arguments Raised {A} err.
Arguments Exited {A} code.
Arguments Stuck {A}.

Definition M (A : Type) : Type := (list event * outcome A)%type.

(** Sequencing: [x ← m; k] runs [k] only when [m] has returned, which is
    what a statement after an [await] does. *)
#[global] Instance M_ret : MRet M := λ A a, ([], Returned a).

#[global] Instance M_bind : MBind M := λ A B k m,
  match m with
  | (l, Returned a) => let '(l', o) := k a in (l ++ l', o)
  | (l, Raised err) => (l, Raised err)
  | (l, Exited code) => (l, Exited code)
  | (l, Stuck) => (l, Stuck)
  end.

Definition throw {A} (err : value) : M A := ([], Raised err).

(** [try { body } catch (err) { handler }]: only a throw is caught. *)
Definition try_catch {A} (body : M A) (handler : value → M A) : M A :=
  match body with
  | (l, Raised err) => let '(l', o) := handler err in (l ++ l', o)
  | _ => body
  end.

Definition trace {A} (m : M A) : list event := fst m.
Definition result {A} (m : M A) : outcome A := snd m.

Definition console_log (args : list value) : M unit :=
  ([Console Out args], Returned tt).
Definition console_error (args : list value) : M unit :=
  ([Console Err args], Returned tt).
Definition stdout_write (chunk : string) : M unit :=
  ([StdoutWrite chunk], Returned tt).
Definition process_exit {A} (code : Z) : M A := ([], Exited code).

(** The two properties the harness reads off a caught value.  Reading a
    property of [undefined] or [null] throws a TypeError (the text is
    V8's); the primitives have neither property. *)
Inductive property : Type := message_ | cause_.

Definition property_name (p : property) : string :=
  match p with message_ => "message" | cause_ => "cause" end.

Definition member (obj : value) (p : property) : M value :=
  match obj with
  | VUndefined | VNull =>
      throw (VError "TypeError"
               ("Cannot read properties of " +:+ to_string obj +:+
                " (reading '" +:+ property_name p +:+ "')") VUndefined)
  | VError _ message cause =>
      mret (match p with message_ => VStr message | cause_ => cause end)
  | VBool _ | VStr _ | VArray _ => mret VUndefined
  end.

(** [a || b] on values already computed. *)
Definition or_else (a b : value) : value := if truthy a then a else b.

(** The line feed of a template literal. *)
Definition LF : string := String (Ascii.ascii_of_nat 10) "".

(** [s.repeat(n)] *)
Fixpoint repeat (s : string) (n : nat) : string :=
  match n with
  | O => ""
  | S n' => s +:+ repeat s n'
  end.

(** How a process ends: with an exit code, or left waiting on a promise
    that never settles.  What a process left waiting does is not decided
    here: it stays for as long as the pending operation holds something
    open (a connection, a timer), and leaves with code 0 once nothing
    does. *)
Inductive exit_status : Type :=
| ExitCode (code : Z)
| LeftWaiting.

(** A script run as the main module.  When the module body has run and
    nothing is pending the process leaves with code 0; an exception
    nobody caught makes it leave with code 1; [process.exit] leaves at
    once. *)
Definition run_process (script : M unit) : list event * exit_status :=
  match script with
  | (l, Returned _) => (l, ExitCode 0)
  | (l, Raised err) => (l ++ [Console Err [err]], ExitCode 1)
  | (l, Exited code) => (l, ExitCode code)
  | (l, Stuck) => (l, LeftWaiting)
  end.

End Js.

Export Js.

(** ** The AI SDK, as the scripts consume it *)

Module Sdk.

(** How a promise settles, if it does. *)
Inductive settled (A : Type) : Type :=
| Fulfilled (a : A)
| Rejected (reason : value)
| Pending.
Arguments Fulfilled {A} a.
Arguments Rejected {A} reason.
Arguments Pending {A}.

(** [await p] *)
Definition await {A} (p : settled A) : M A :=
  match p with
  | Fulfilled a => mret a
  | Rejected reason => throw reason
  | Pending => ([], Stuck)
  end.

(** The part of a [generateText] result the scripts read: the text and,
    when the service reports one, the usage record as
    [JSON.stringify] prints it. *)
Record generated : Type := Generated { text : string; usage : option string }.

(** A tool invocation the model asks for: the tool's name, the input it
    supplies, and what [JSON.stringify(tc.args)] prints for it. *)
Record tool_call : Type :=
  ToolCall { toolName : string; input : gmap string value; args : string }.

(** One round trip of the tool-call loop, as the model answers it. *)
Record reply : Type := Reply { said : string; toolCalls : list tool_call }.

(** The outcome of one requested invocation, as it is reported back to
    the model. *)
Inductive tool_output : Type :=
| Output (result : string)
| InvalidInput
| NoSuchTool.

Record step : Type :=
  Step { answered : reply; outputs : list tool_output }.

(** The remote service is not part of the repository.  It is a
    parameter of the scripts: for every request, how the completion
    settles, which fragments a stream delivers and how it ends, and what
    the model answers in a tool-call loop given the steps so far. *)
Record service : Type := Service {
  completes : request → settled generated;
  streams : request → list string * settled unit;
  decides : request → list step → settled reply
}.

(** [await generateText({ model, prompt | messages })] *)
Definition generateText (svc : service) (req : request) : M generated :=
  ([Remote req], Returned tt);;
  await (completes svc req).

(** Modelled from the spec: the SDK's [streamText] is not in the
    repository.  The spec's contract for it: it produces a lazy, finite,
    non-restartable sequence of text fragments, delivered incrementally,
    which the consumer drains fully before it proceeds.

    The result of [streamText({ model, prompt })]: the request it stands
    for, the fragments it will deliver and how reading it ends. *)
Record text_stream : Type := TextStream {
  source : request;
  fragments : list string;
  finish : settled unit
}.

(** Modelled from the spec: [streamText] returns the stream at once.
    The stream is lazy: nothing is sent before it is read. *)
Definition streamText (svc : service) (req : request) : M text_stream :=
  mret (TextStream req (fst (streams svc req)) (snd (streams svc req))).

(** The body of a loop, run on each fragment in turn. *)
Fixpoint for_each (chunks : list string) (body : string → M unit) : M unit :=
  match chunks with
  | [] => mret tt
  | chunk :: more => body chunk;; for_each more body
  end.

(** Modelled from the spec: [for await (const chunk of textStream)
    body(chunk)] drains the stream.  Reading it sends the request; the
    body runs on each fragment delivered, in order; then the end of the
    stream is awaited. *)
Definition for_await (textStream : text_stream)
    (body : string → M unit) : M unit :=
  ([Remote (source textStream)], Returned tt);;
  for_each (fragments textStream) body;;
  await (finish textStream).

(** A registered tool: [tool({ description, inputSchema, execute })].
    The schema parses the raw input into the type [execute] takes. *)
Record tool (I : Type) : Type := MkTool {
  description : string;
  inputSchema : gmap string value → option I;
  execute : I → M string
}.
Arguments MkTool {I}.
Arguments description {I}.
Arguments inputSchema {I}.
Arguments execute {I}.

(** Modelled from the spec: the body of the SDK's [generateText] when it
    is given tools and a stop condition is not in the repository.  The
    spec's contract for it: the model may request zero or more tool
    invocations per round trip, each validated against the declared
    input schema before the registered callback runs locally, and the
    number of round trips is capped by the step bound.

    One invocation: the callback runs only on an input the schema
    accepts. *)
Definition call_tool {I} (tools : gmap string (tool I)) (tc : tool_call)
  : M tool_output :=
  match tools !! toolName tc with
  | None => mret NoSuchTool
  | Some t =>
      match inputSchema t (input tc) with
      | None => mret InvalidInput
      | Some i =>
          ([Tool (toolName tc) (input tc)], Returned tt);;
          out ← execute t i;
          mret (Output out)
      end
  end.

Fixpoint call_tools {I} (tools : gmap string (tool I))
    (tcs : list tool_call) : M (list tool_output) :=
  match tcs with
  | [] => mret []
  | tc :: rest =>
      o ← call_tool tools tc;
      os ← call_tools tools rest;
      mret (o :: os)
  end.

(** Modelled from the spec: the tool-call loop, [stepCount] round trips
    at most ([stopWhen: stepCountIs(stepCount)]).  It ends early when
    the model requests no tool. *)
Fixpoint tool_loop {I} (svc : service) (req : request)
    (tools : gmap string (tool I)) (stepCount : nat) (steps : list step)
  : M (list step) :=
  match stepCount with
  | O => mret steps
  | S remaining =>
      ([Remote req], Returned tt);;
      r ← await (decides svc req steps);
      os ← call_tools tools (toolCalls r);
      let steps' := steps ++ [Step r os] in
      match toolCalls r with
      | [] => mret steps'
      | _ :: _ => tool_loop svc req tools remaining steps'
      end
  end.

(** [result.text]: the text of the last step. *)
Definition final_text (steps : list step) : string :=
  match last steps with
  | Some s => said (answered s)
  | None => ""
  end.

End Sdk.

Export Sdk.

(** ** The harness shared by both scripts *)

Module Harness.

(** [{ name: string; passed: boolean }] *)
Record TestResult : Type := { name : string; passed : bool }.

(** An entry of the [tests] table of [main]. *)
Definition test : Type := (string * (unit → M unit))%type.

(** [function divider(title)] *)
Definition divider (title : string) : M unit :=
  console_log [VStr (LF +:+ repeat "═" 60)];;
  console_log [VStr ("  " +:+ title)];;
  console_log [VStr (repeat "═" 60 +:+ LF)].

(** The [catch (err)] block of [runTest]. *)
Definition runTest_catch (name : string) (err : value) : M bool :=
  console_error [VStr (LF +:+ "❌  " +:+ name +:+ " — FAILED")];;
  m ← member err message_;
  console_error [VStr ("    " +:+ to_string (or_else m err))];;
  c ← member err cause_;
  (if truthy c then console_error [VStr "    Cause:"; c] else mret tt);;
  mret false.

(** [async function runTest(name, fn): Promise<boolean>] *)
Definition runTest (name : string) (fn : unit → M unit) : M bool :=
  try_catch
    (divider name;;
     fn tt;;
     console_log [VStr (LF +:+ "✅  " +:+ name +:+ " — PASSED")];;
     mret true)
    (runTest_catch name).

(** The loop of [main]:
    [for (const [name, fn] of tests) {
       const passed = await runTest(name, fn);
       results.push({ name, passed }); }] *)
Fixpoint run_tests (tests : list test) (results : list TestResult)
  : M (list TestResult) :=
  match tests with
  | [] => mret results
  | (name, fn) :: rest =>
      passed ← runTest name fn;
      run_tests rest (results ++ [{| name := name; passed := passed |}])
  end.

(** [for (const r of results) console.log(`  ${r.passed ? ✅ : ❌}  ${r.name}`)] *)
Fixpoint print_results (results : list TestResult) : M unit :=
  match results with
  | [] => mret tt
  | r :: rest =>
      console_log
        [VStr ("  " +:+ (if passed r then "✅" else "❌") +:+ "  " +:+ name r)];;
      print_results rest
  end.

(** [results.filter((r) => r.passed).length] *)
Definition count_passed (results : list TestResult) : nat :=
  length (List.filter passed results).

(** The text of the last line of the summary,
    [`\n  ${passed}/${results.length} tests passed`]. *)
Definition tally (passed total : nat) : string :=
  LF +:+ "  " +:+ pretty passed +:+ "/" +:+ pretty total +:+ " tests passed".

(** [main().catch(console.error)] *)
Definition catch_console_error (main : M unit) : M unit :=
  try_catch main (λ err, console_error [err]).

(** [process.env.NAME], a string or undefined. *)
Definition of_env (v : option string) : value :=
  match v with
  | Some s => VStr s
  | None => VUndefined
  end.

(** [process.env.NAME || fallback] *)
Definition env_or (v : option string) (fallback : string) : string :=
  to_string (or_else (of_env v) (VStr fallback)).

End Harness.

Export Harness.

(** ** The starter kit, [index.ts] *)

Module Starter.

Inductive temperature_unit : Type := celsius | fahrenheit.

(** The input of [getWeather] once the schema has accepted it. *)
Record weather_input : Type :=
  { location : string; unit_ : option temperature_unit }.

(** [z.object({ location: z.string(),
                unit: z.enum([celsius, fahrenheit]).optional() })] *)
Definition getWeather_inputSchema (raw : gmap string value)
  : option weather_input :=
  match raw !! "location" with
  | Some (VStr location) =>
      match raw !! "unit" with
      | None | Some VUndefined =>
          Some {| location := location; unit_ := None |}
      | Some (VStr u) =>
          if String.eqb u "celsius"
          then Some {| location := location; unit_ := Some celsius |}
          else if String.eqb u "fahrenheit"
          then Some {| location := location; unit_ := Some fahrenheit |}
          else None
      | Some _ => None
      end
  | _ => None
  end.

(** [location.toLowerCase()], on the letters A to Z: what
    [String.prototype.toLowerCase] does to a string of ASCII characters.
    Outside ASCII the two differ. *)
Definition lower (c : Ascii.ascii) : Ascii.ascii :=
  let n := Ascii.nat_of_ascii c in
  if (65 <=? n)%nat && (n <=? 90)%nat then Ascii.ascii_of_nat (n + 32) else c.

Fixpoint toLowerCase (s : string) : string :=
  match s with
  | EmptyString => EmptyString
  | String c rest => String (lower c) (toLowerCase rest)
  end.

(** The simulated weather table of [getWeather]. *)
Definition temps : gmap string Z :=
  {[ "san francisco" := 18%Z; "tokyo" := 22%Z; "london" := 12%Z ]}.

(** [Math.round(temp * 1.8 + 32)], exact on the integers of the table:
    rounding to nearest, a half towards plus infinity. *)
Definition to_fahrenheit (temp : Z) : Z := ((temp * 18 + 320 + 5) `div` 10)%Z.

(** The [execute] callback of [getWeather].  The table is looked up as a
    map of its three cities; a location that names a property every
    object inherits, such as constructor, is outside this model. *)
Definition getWeather_execute (i : weather_input) : M string :=
  let temp := default 20%Z (temps !! toLowerCase (location i)) in
  let displayUnit :=
    match unit_ i with Some fahrenheit => "°F" | _ => "°C" end in
  let displayTemp :=
    match unit_ i with Some fahrenheit => to_fahrenheit temp | _ => temp end in
  mret (location i +:+ ": " +:+ pretty displayTemp +:+ displayUnit +:+
        ", partly cloudy").

Definition getWeather : tool weather_input :=
  MkTool "Get the current weather for a location."
    getWeather_inputSchema getWeather_execute.

(** [stopWhen: stepCountIs(5)] *)
Definition stepCount : nat := 5.

Section Script.

(** [process.env] once [dotenv.config()] has run, and the service. *)
Variable env : gmap string string.
Variable svc : service.

Definition AZURE_ENDPOINT : option string := env !! "AZURE_API_ENDPOINT".
Definition AZURE_API_KEY : option string := env !! "AZURE_API_KEY".
Definition MODEL_GPT : string := env_or (env !! "AZURE_MODEL_GPT") "gpt-4o".
Definition MODEL_ALT : string := env_or (env !! "AZURE_MODEL_ALT") "".

(** Test 1 *)
Definition testGenerateText (_ : unit) : M unit :=
  r ← generateText svc
        (Request AzureFoundry MODEL_GPT
           (Prompt "Explain what Azure AI Foundry is in 2 sentences."));
  console_log [VStr "Provider: @quail-ai/azure-ai-provider"];;
  console_log [VStr "Model:"; VStr MODEL_GPT];;
  console_log [VStr "Response:"; VStr (text r)];;
  match usage r with
  | Some u => console_log [VStr "Tokens:"; VStr u]
  | None => mret tt
  end.

(** Test 2 *)
Definition testStreamText (_ : unit) : M unit :=
  result ← streamText svc
             (Request AzureFoundry MODEL_GPT
                (Prompt "Write a haiku about cloud computing."));
  stdout_write "Streamed: ";;
  for_await result (λ chunk, stdout_write chunk);;
  console_log [].

(** Test 3 *)
Definition testConversation (_ : unit) : M unit :=
  r ← generateText svc
        (Request AzureFoundry MODEL_GPT
           (Messages
              [ Message "system" "You are a helpful AI assistant. Be concise.";
                Message "user" "What is the Vercel AI SDK?";
                Message "assistant" "The Vercel AI SDK is a TypeScript toolkit for building AI-powered apps with React, Next.js, and other frameworks.";
                Message "user" "How does it connect to Azure AI Foundry? Reply in 2-3 sentences." ]));
  console_log [VStr "Multi-turn response:"; VStr (text r)].

(** Test 4 *)
Definition testToolCalling (_ : unit) : M unit :=
  steps ← tool_loop svc
            (Request AzureViaOpenAI MODEL_GPT
               (Prompt "What's the weather in San Francisco and Tokyo?"))
            {[ "getWeather" := getWeather ]} stepCount [];
  console_log [VStr "Provider: @ai-sdk/openai (custom headers)"];;
  console_log [VStr "Final text:"; VStr (final_text steps)];;
  console_log
    [VStr "Tool calls made:";
     VArray
       (flat_map
          (λ s, map (λ tc, VStr (toolName tc +:+ "(" +:+ args tc +:+ ")"))
                  (toolCalls (answered s)))
          steps)].

(** Test 5 *)
Definition testOpenAICompatProvider (_ : unit) : M unit :=
  r ← generateText svc
        (Request AzureOpenAICompat MODEL_GPT
           (Prompt "Say 'hello from OpenAI-compatible provider' and nothing else."));
  console_log [VStr "Provider: @ai-sdk/openai-compatible"];;
  console_log [VStr "Response:"; VStr (text r)].

(** Test 6 *)
Definition testAlternativeModel (_ : unit) : M unit :=
  if negb (truthy (VStr MODEL_ALT)) then
    console_log [VStr "⏭️  Skipped — AZURE_MODEL_ALT not set in .env"]
  else
    r ← generateText svc
          (Request AzureFoundry MODEL_ALT
             (Prompt "What model are you? Reply in one sentence."));
    console_log [VStr ("Model: " +:+ MODEL_ALT)];;
    console_log [VStr "Response:"; VStr (text r)].

(** The table of [main]. *)
Definition tests : list test :=
  [ ("1. Generate Text (Foundry Provider)", testGenerateText);
    ("2. Stream Text (Foundry Provider)", testStreamText);
    ("3. Multi-turn Conversation", testConversation);
    ("4. Tool Calling (@ai-sdk/openai)", testToolCalling);
    ("5. OpenAI-Compatible Provider", testOpenAICompatProvider);
    ("6. Alternative Model", testAlternativeModel) ].

(** [async function main()], its table of tests taken as a parameter. *)
Definition main_with (tests : list test) : M unit :=
  console_log [VStr ("🚀 Vercel AI SDK v6 + Azure AI Foundry — Starter Kit" +:+ LF)];;
  console_log [VStr "Endpoint:"; of_env AZURE_ENDPOINT];;
  console_log [VStr "Primary model:"; VStr MODEL_GPT];;
  console_log [VStr "Alternative model:"; or_else (VStr MODEL_ALT) (VStr "(not set)")];;
  results ← run_tests tests [];
  divider "Summary";;
  print_results results;;
  let passed := count_passed results in
  console_log [VStr (tally passed (length results))].

Definition main : M unit := main_with tests.

(** The module body: the configuration check, then (the providers are
    built without any request) [main().catch(console.error)]. *)
Definition script_with (tests : list test) : M unit :=
  (if negb (truthy (of_env AZURE_ENDPOINT)) || negb (truthy (of_env AZURE_API_KEY))
   then
     console_error [VStr "❌  Missing AZURE_API_ENDPOINT or AZURE_API_KEY — copy .env.example → .env and fill in your values."];;
     process_exit 1
   else mret tt);;
  catch_console_error (main_with tests).

Definition script : M unit := script_with tests.

End Script.

End Starter.

(** ** The enhanced suite, [index_with_flux.ts] *)

Module Flux.

(** Evaluating an identifier that no scope declares. *)
Definition undeclared (identifier : string) : M value :=
  throw (VError "ReferenceError" (identifier +:+ " is not defined") VUndefined).

Section Script.

Variable env : gmap string string.

(** The eight test functions.  What they do is immaterial to the
    properties stated of this script, so they are left open. *)
Variables testEndpointValidation testGPT52 testKimiK25 testConversation
  testToolCalling testFluxImageGeneration testStreamingKimi
  testCrossProviderCompatibility : unit → M unit.

Definition AZURE_ENDPOINT : option string := env !! "AZURE_API_ENDPOINT".
Definition AZURE_API_KEY : option string := env !! "AZURE_API_KEY".
Definition MODEL_GPT : string := env_or (env !! "AZURE_MODEL_GPT") "gpt-4o".
Definition MODEL_KIMI : string := env_or (env !! "AZURE_MODEL_KIMI") "Kimi-K2.5".
Definition MODEL_FLUX : string := env_or (env !! "AZURE_MODEL_FLUX") "FLUX.2-pro".
Definition FLUX_ENDPOINT : string :=
  env_or (env !! "FLUX_ENDPOINT") "https://jai-omi.openai.azure.com/openai/v1/".

(** The table of [main]. *)
Definition tests : list test :=
  [ ("1. Endpoint Validation", testEndpointValidation);
    ("2. GPT-5.2 Text Generation", testGPT52);
    ("3. Kimi K2.5 Text Generation", testKimiK25);
    ("4. Multi-turn Conversation (GPT-5.2)", testConversation);
    ("5. Tool Calling (GPT-5.2)", testToolCalling);
    ("6. FLUX.2-pro Image Generation", testFluxImageGeneration);
    ("7. Streaming (Kimi K2.5)", testStreamingKimi);
    ("8. Cross-Provider Compatibility", testCrossProviderCompatibility) ].

(** [async function main()].  The fifth line of the banner reads
    [MODEL_GPd], which is declared nowhere. *)
Definition main_with (tests : list test) : M unit :=
  console_log [VStr ("🚀 Vercel AI SDK v6 + Azure AI Foundry — Enhanced Integration Test Suite" +:+ LF)];;
  console_log [VStr "Configuration:"];;
  console_log [VStr ("├── Text Models Endpoint: " +:+ to_string (of_env AZURE_ENDPOINT))];;
  console_log [VStr ("├── Image Model Endpoint: " +:+ FLUX_ENDPOINT)];;
  MODEL_GPd ← undeclared "MODEL_GPd";
  console_log [VStr ("├── GPT Model: " +:+ to_string MODEL_GPd)];;
  console_log [VStr ("├── Kimi Model: " +:+ MODEL_KIMI)];;
  console_log [VStr ("└── FLUX Model: " +:+ MODEL_FLUX)];;
  results ← run_tests tests [];
  divider "Test Summary";;
  print_results results;;
  let passed := count_passed results in
  console_log [VStr (tally passed (length results))];;
  if (passed =? length results)%nat then
    console_log [VStr (LF +:+ "🎉 AR tests passed! Your Azure AI Foundry integration is working perfectly.")]
  else
    console_log [VStr (LF +:+ "⚠️  Some tests failed. Please check the error messages above for details.")].

Definition main : M unit := main_with tests.

(** The module body: the configuration check, then (the providers and
    the image client are built without any request)
    [main().catch(console.error)]. *)
Definition script : M unit :=
  (if negb (truthy (of_env AZURE_ENDPOINT)) || negb (truthy (of_env AZURE_API_KEY))
   then
     console_error [VStr "❌  Missing AZURE_API_ENDPOINT or AZURE_API_KEY — copy .env.example → .env and fill in your values."];;
     process_exit 1
   else mret tt);;
  catch_console_error main.

End Script.

End Flux.

(** ** Observations on a trace *)

Module Observe.

Definition is_remote (e : event) : bool :=
  match e with Remote _ => true | _ => false end.

Definition is_tool (e : event) : bool :=
  match e with Tool _ _ => true | _ => false end.

(** The calls made to the remote service. *)
Definition remote_calls (l : list event) : nat :=
  length (List.filter is_remote l).

(** What was handed to [console.error], call by call. *)
Fixpoint stderr (l : list event) : list (list value) :=
  match l with
  | [] => []
  | Console Err args :: rest => args :: stderr rest
  | _ :: rest => stderr rest
  end.

(** What was handed to [console.log], call by call. *)
Fixpoint stdout (l : list event) : list (list value) :=
  match l with
  | [] => []
  | Console Out args :: rest => args :: stdout rest
  | _ :: rest => stdout rest
  end.

(** How often [needle] occurs in [s] (occurrences may overlap). *)
Fixpoint occurrences (needle s : string) : nat :=
  match s with
  | EmptyString => 0
  | String _ rest =>
      (if String.prefix needle s then 1 else 0) + occurrences needle rest
  end%nat.

(** The text of one console call, its arguments joined by a blank: exact
    when all of them are strings. *)
Definition rendered (args : list value) : string :=
  String.concat " " (map to_string args).

Definition printed (needle : string) (calls : list (list value)) : nat :=
  sum_list (map (λ args, occurrences needle (rendered args)) calls).

(** A test that only prints and settles: the events it emits and how its
    promise settles. *)
Record behaviour : Type :=
  Behaviour { emits : list event; settles : settled unit }.

Definition perform (b : behaviour) : unit → M unit :=
  λ _, ((emits b, Returned tt) : M unit);; await (settles b).

Definition rejects (b : behaviour) : bool :=
  match settles b with Rejected _ => true | _ => false end.

(** Reading [err.message] off the value throws. *)
Definition nullish (v : value) : bool :=
  match v with VUndefined | VNull => true | _ => false end.

(** A table of named behaviours, as [main] takes it. *)
Definition register (tests : list (string * behaviour)) : list test :=
  map (λ t, (t.1, perform t.2)) tests.

(** The action settles, and not by rejecting with [undefined] or [null]:
    it is fulfilled, or rejected with a string, a boolean, an Error
    object or an array (the other values of the model). *)
Definition reportable (b : behaviour) : bool :=
  match settles b with
  | Fulfilled _ => true
  | Rejected reason => negb (nullish reason)
  | Pending => false
  end.

Definition fulfils (b : behaviour) : bool :=
  match settles b with Fulfilled _ => true | _ => false end.

(** One entry per test, in the order of the table. *)
Definition expected (tests : list (string * behaviour)) : list TestResult :=
  map (λ t, {| name := t.1; passed := fulfils t.2 |}) tests.

(** What one test leaves on the trace: the header, what the action
    emits, and what [runTest] prints once the action has settled. *)
Definition closing (name : string) (s : settled unit) : list event :=
  match s with
  | Fulfilled _ => [Console Out [VStr (LF +:+ "✅  " +:+ name +:+ " — PASSED")]]
  | Rejected reason => trace (runTest_catch name reason)
  | Pending => []
  end.

Definition block (t : string * behaviour) : list event :=
  trace (divider t.1) ++ emits t.2 ++ closing t.1 (settles t.2).

(** A configuration variable holds a non-empty string. *)
Definition provided (v : option string) : bool :=
  match v with
  | Some (String _ _) => true
  | _ => false
  end.

Definition configured (env : gmap string string) : bool :=
  provided (env !! "AZURE_API_ENDPOINT") && provided (env !! "AZURE_API_KEY").

(** A callback that ran was [getWeather], on an input its schema
    accepts. *)
Definition validated (e : event) : Prop :=
  match e with
  | Tool tool input =>
      tool = "getWeather" ∧ is_Some (Starter.getWeather_inputSchema input)
  | _ => True
  end.

(** The line the alternative-model test prints when it has no model. *)
Definition skip_line : event :=
  Console Out [VStr "⏭️  Skipped — AZURE_MODEL_ALT not set in .env"].

(** The skip as the spec words it: no call to the remote service, no
    failure, a line of its own, and an outcome recorded neither as a
    pass nor as a fail, that is, no entry for the test among the
    results. *)
Definition skipped_and_unrecorded (env : gmap string string) (svc : service)
  : Prop :=
  let t := runTest "6. Alternative Model" (Starter.testAlternativeModel env svc) in
  remote_calls (trace t) = 0 ∧
  result t ≠ Returned false ∧
  skip_line ∈ trace t ∧
  ∀ l results,
    run_tests (Starter.tests env svc) [] = (l, Returned results) →
    ∀ r, r ∈ results → name r ≠ "6. Alternative Model".

End Observe.

Export Observe.

(** ** Concrete runs *)

Module Scenario.

(** Both required variables set, the optional ones left out. *)
Definition env_set : gmap string string :=
  {[ "AZURE_API_ENDPOINT" := "https://example.services.ai.azure.com/models";
     "AZURE_API_KEY" := "secret" ]}.

(** The credential left empty. *)
Definition env_no_key : gmap string string :=
  {[ "AZURE_API_ENDPOINT" := "https://example.services.ai.azure.com/models";
     "AZURE_API_KEY" := "" ]}.

(** A service that answers every request, and asks for no tool. *)
Definition svc_answers : service :=
  Service (λ _, Fulfilled (Generated "ok" None))
          (λ _, (["o"; "k"], Fulfilled tt))
          (λ _ _, Fulfilled (Reply "sunny" [])).

(** A service whose model asks for the weather at every round trip:
    once with a valid input, once with a number for the city. *)
Definition svc_asks_forever : service :=
  Service (λ _, Fulfilled (Generated "ok" None))
          (λ _, ([], Fulfilled tt))
          (λ _ _, Fulfilled
             (Reply ""
                [ ToolCall "getWeather"
                    {[ "location" := VStr "Tokyo"; "unit" := VStr "fahrenheit" ]}
                    "{}";
                  ToolCall "getWeather" {[ "location" := VBool true ]} "{}" ])).

(** The two tests of the spec's scenario. *)
Definition A : behaviour := Behaviour [] (Fulfilled tt).
Definition B : behaviour :=
  Behaviour [] (Rejected (VError "Error" "boom" VUndefined)).
Definition A_then_B : list (string * behaviour) := [("A", A); ("B", B)].

(** A test that rejects with no reason, as [Promise.reject()] does,
    followed by one that writes a mark and passes. *)
Definition rejects_undefined : behaviour := Behaviour [] (Rejected VUndefined).
Definition marks : behaviour := Behaviour [StdoutWrite "second test runs"] (Fulfilled tt).
Definition undefined_then_mark : list (string * behaviour) :=
  [("first", rejects_undefined); ("second", marks)].

(** A test function that leaves a mark when it runs. *)
Definition no_test : unit → M unit := λ _, stdout_write "a test runs".

End Scenario.

(** ** The text tests of the enhanced suite *)

Module FluxSuite.

Section Tests.

Variable env : gmap string string.
Variable svc : service.

(** [String.prototype.trim], left open: nothing below depends on what it
    strips. *)
Variable trim : string → string.

(** Test 1 of the enhanced suite. *)
Definition testGPT52 (_ : unit) : M unit :=
  r ← generateText svc
        (Request AzureFoundry (Flux.MODEL_GPT env)
           (Prompt "Explain what Azure AI Foundry is in 2 sentences."));
  console_log [VStr "Provider: @quail-ai/azure-ai-provider"];;
  console_log [VStr "Model:"; VStr (Flux.MODEL_GPT env)];;
  console_log [VStr "Response:"; VStr (text r)];;
  match usage r with
  | Some u => console_log [VStr "Tokens:"; VStr u]
  | None => mret tt
  end.

(** Test 2 of the enhanced suite. *)
Definition testKimiK25 (_ : unit) : M unit :=
  r ← generateText svc
        (Request AzureFoundry (Flux.MODEL_KIMI env)
           (Prompt "Write a haiku about artificial intelligence."));
  console_log [VStr "Provider: @quail-ai/azure-ai-provider"];;
  console_log [VStr "Model:"; VStr (Flux.MODEL_KIMI env)];;
  console_log [VStr "Response:"; VStr (text r)];;
  match usage r with
  | Some u => console_log [VStr "Tokens:"; VStr u]
  | None => mret tt
  end.

(** Test 3 of the enhanced suite. *)
Definition testConversation (_ : unit) : M unit :=
  r ← generateText svc
        (Request AzureFoundry (Flux.MODEL_GPT env)
           (Messages
              [ Message "system" "You are a helpful AI assistant. Be concise.";
                Message "user" "What is the Vercel AI SDK?";
                Message "assistant" "The Vercel AI SDK is a TypeScript toolkit for building AI-powered apps with React, Next.js, and other frameworks.";
                Message "user" "How does it connect to Azure AI Foundry? Reply in 2-3 sentences." ]));
  console_log [VStr "Multi-turn conversation with GPT-5.2:"; VStr (text r)].

(** Test 6 of the enhanced suite. *)
Definition testStreamingKimi (_ : unit) : M unit :=
  result ← streamText svc
             (Request AzureFoundry (Flux.MODEL_KIMI env)
                (Prompt "Write a short poem about machine learning."));
  stdout_write "Kimi K2.5 Streamed: ";;
  for_await result (λ chunk, stdout_write chunk);;
  console_log [].

(** Test 7 of the enhanced suite. *)
Definition testCrossProviderCompatibility (_ : unit) : M unit :=
  let prompt := "What is 2+2? Reply with just the number." in
  gptResult ← generateText svc
                (Request AzureFoundry (Flux.MODEL_GPT env) (Prompt prompt));
  kimiResult ← generateText svc
                 (Request AzureFoundry (Flux.MODEL_KIMI env) (Prompt prompt));
  console_log [VStr ("GPT-5.2 response: " +:+ trim (text gptResult))];;
  console_log [VStr ("Kimi K2.5 response: " +:+ trim (text kimiResult))];;
  console_log [VStr "✅ Cross-provider compatibility verified"].

(** Test 8 of the enhanced suite. *)
Definition testEndpointValidation (_ : unit) : M unit :=
  console_log [VStr "Validating endpoints..."];;
  console_log [VStr ("Text models endpoint: " +:+
                     to_string (of_env (Flux.AZURE_ENDPOINT env)))];;
  console_log [VStr ("Image model endpoint: " +:+ Flux.FLUX_ENDPOINT env)];;
  console_log [VStr ("GPT model deployment: " +:+ Flux.MODEL_GPT env)];;
  console_log [VStr ("Kimi model deployment: " +:+ Flux.MODEL_KIMI env)];;
  console_log [VStr ("FLUX model deployment: " +:+ Flux.MODEL_FLUX env)];;
  r ← generateText svc
        (Request AzureFoundry (Flux.MODEL_GPT env)
           (Prompt "Say 'endpoint validation successful'"));
  console_log [VStr ("Validation response: " +:+ text r)].

End Tests.

End FluxSuite.

(** ** Shapes of a run *)

Module Shape.

(** The requests on a trace, in the order they were sent. *)
Fixpoint requests (l : list event) : list request :=
  match l with
  | [] => []
  | Remote r :: rest => r :: requests rest
  | _ :: rest => requests rest
  end.

(** The four lines [main] of the starter kit prints first. *)
Definition banner (env : gmap string string) : list event :=
  [ Console Out [VStr ("🚀 Vercel AI SDK v6 + Azure AI Foundry — Starter Kit" +:+ LF)];
    Console Out [VStr "Endpoint:"; of_env (env !! "AZURE_API_ENDPOINT")];
    Console Out [VStr "Primary model:"; VStr (Starter.MODEL_GPT env)];
    Console Out [VStr "Alternative model:";
                 or_else (VStr (Starter.MODEL_ALT env)) (VStr "(not set)")] ].

(** The line of the summary for one result. *)
Definition summary_line (r : TestResult) : event :=
  Console Out
    [VStr ("  " +:+ (if passed r then "✅" else "❌") +:+ "  " +:+ name r)].

(** The first test that does not let [runTest] return is one that never
    settles. *)
Definition hangs (tests : list (string * behaviour)) : bool :=
  match List.find (λ t, negb (reportable t.2)) tests with
  | Some t => match settles t.2 with Pending => true | _ => false end
  | None => false
  end.

(** The requests of the six tests of the starter kit. *)
Definition request_1 (env : gmap string string) : request :=
  Request AzureFoundry (Starter.MODEL_GPT env)
    (Prompt "Explain what Azure AI Foundry is in 2 sentences.").
Definition request_2 (env : gmap string string) : request :=
  Request AzureFoundry (Starter.MODEL_GPT env)
    (Prompt "Write a haiku about cloud computing.").
Definition request_3 (env : gmap string string) : request :=
  Request AzureFoundry (Starter.MODEL_GPT env)
    (Messages
       [ Message "system" "You are a helpful AI assistant. Be concise.";
         Message "user" "What is the Vercel AI SDK?";
         Message "assistant" "The Vercel AI SDK is a TypeScript toolkit for building AI-powered apps with React, Next.js, and other frameworks.";
         Message "user" "How does it connect to Azure AI Foundry? Reply in 2-3 sentences." ]).
Definition request_4 (env : gmap string string) : request :=
  Request AzureViaOpenAI (Starter.MODEL_GPT env)
    (Prompt "What's the weather in San Francisco and Tokyo?").
Definition request_5 (env : gmap string string) : request :=
  Request AzureOpenAICompat (Starter.MODEL_GPT env)
    (Prompt "Say 'hello from OpenAI-compatible provider' and nothing else.").
Definition request_6 (env : gmap string string) : request :=
  Request AzureFoundry (Starter.MODEL_ALT env)
    (Prompt "What model are you? Reply in one sentence.").

(** The requests of a whole run in which the tool-call loop takes [k]
    round trips. *)
Definition planned (env : gmap string string) (k : nat) : list request :=
  [request_1 env; request_2 env; request_3 env] ++
  replicate k (request_4 env) ++
  [request_5 env] ++
  (if String.eqb (Starter.MODEL_ALT env) "" then [] else [request_6 env]).

(** The unit is one of the two of the schema, or left out. *)
Definition unit_accepted (v : option value) : bool :=
  match v with
  | None | Some VUndefined => true
  | Some (VStr u) => String.eqb u "celsius" || String.eqb u "fahrenheit"
  | Some _ => false
  end.

(** Every character of the string is an ASCII character. *)
Fixpoint ascii_only (s : string) : bool :=
  match s with
  | EmptyString => true
  | String c rest => (Ascii.nat_of_ascii c <? 128)%nat && ascii_only rest
  end.

(** The lower-case names that every object inherits a property for: a
    lookup of one of them in the table of [getWeather] finds that
    property, not a temperature. *)
Definition inherited_name (key : string) : bool :=
  String.eqb key "constructor" || String.eqb key "__proto__".

(** The location is a string. *)
Definition location_accepted (v : option value) : bool :=
  match v with
  | Some (VStr _) => true
  | _ => false
  end.

End Shape.

Export Shape.

(** Further concrete runs. *)

Module Runs.

(** A test that never settles, after A and before a test that leaves a
    mark. *)
Definition never_settles : behaviour := Behaviour [] Pending.
Definition A_then_stall : list (string * behaviour) :=
  [("A", Scenario.A); ("stall", never_settles); ("second", Scenario.marks)].

(** The alternative model set as well. *)
Definition env_alt : gmap string string :=
  <[ "AZURE_MODEL_ALT" := "Kimi-K2.5" ]> Scenario.env_set.

(** A service that rejects every completion with an authorisation error
    that carries a cause. *)
Definition svc_denies : service :=
  Service (λ _, Rejected (VError "APICallError" "Unauthorized" (VStr "401")))
          (λ _, (["par"; "tial"], Rejected (VError "Error" "reset" VUndefined)))
          (λ _ _, Rejected (VError "APICallError" "Unauthorized" (VStr "401"))).

End Runs.

(** * Properties *)

(** ** The effect monad *)

Lemma bind_returned {A B} (l : list event) (a : A) (k : A → M B) :
  ((l, Returned a) : M A) ≫= k = (l ++ trace (k a), result (k a)).
Proof. unfold mbind, M_bind, trace, result. by destruct (k a). Qed.

Lemma bind_raised {A B} (l : list event) (err : value) (k : A → M B) :
  ((l, Raised err) : M A) ≫= k = (l, Raised err).
Proof. done. Qed.

Lemma bind_exited {A B} (l : list event) (code : Z) (k : A → M B) :
  ((l, Exited code) : M A) ≫= k = (l, Exited code).
Proof. done. Qed.

Lemma bind_stuck {A B} (l : list event) (k : A → M B) :
  ((l, Stuck) : M A) ≫= k = (l, Stuck).
Proof. done. Qed.

Lemma M_eta {A} (m : M A) : m = (trace m, result m).
Proof. by destruct m. Qed.

(** ** [runTest] *)

(** The three lines of a section header. *)
Lemma divider_trace (title : string) :
  divider title =
    ([ Console Out [VStr (LF +:+ repeat "═" 60)];
       Console Out [VStr ("  " +:+ title)];
       Console Out [VStr (repeat "═" 60 +:+ LF)] ], Returned tt).
Proof. reflexivity. Qed.

(** What the catch block prints for a value that has properties. *)
Lemma runTest_catch_defined (name : string) (err : value) :
  nullish err = false →
  runTest_catch name err =
    ([ Console Err [VStr (LF +:+ "❌  " +:+ name +:+ " — FAILED")];
       Console Err
         [VStr ("    " +:+
                to_string (or_else (match err with
                                    | VError _ message _ => VStr message
                                    | _ => VUndefined
                                    end) err))] ]
     ++ match err with
        | VError _ _ cause =>
            if truthy cause then [Console Err [VStr "    Cause:"; cause]] else []
        | _ => []
        end,
     Returned false).
Proof.
  destruct err as [ | | b | s | items | n m c]; try done.
  unfold runTest_catch. simpl. by destruct (truthy c).
Qed.

(** The catch block itself throws on [undefined] and [null], after the
    FAILED line. *)
Lemma runTest_catch_nullish (name : string) (err : value) :
  nullish err = true →
  ∃ type_error,
    runTest_catch name err =
      ([Console Err [VStr (LF +:+ "❌  " +:+ name +:+ " — FAILED")]],
       Raised type_error).
Proof. destruct err; try done; intros _; by eexists. Qed.

(** [runTest] by the way its action ends. *)
Lemma runTest_unfold (name : string) (fn : unit → M unit) :
  runTest name fn =
    match fn tt with
    | (l, Returned _) =>
        (trace (divider name) ++ l ++
           [Console Out [VStr (LF +:+ "✅  " +:+ name +:+ " — PASSED")]],
         Returned true)
    | (l, Raised err) =>
        (trace (divider name) ++ l ++ trace (runTest_catch name err),
         result (runTest_catch name err))
    | (l, Exited code) => (trace (divider name) ++ l, Exited code)
    | (l, Stuck) => (trace (divider name) ++ l, Stuck)
    end.
Proof.
  unfold runTest. rewrite divider_trace.
  destruct (fn tt) as [l [[] | err | code | ]] eqn:Hfn;
    rewrite bind_returned; cbn [trace result fst snd].
  - by rewrite !bind_returned.
  - rewrite bind_raised. cbn [try_catch trace result fst snd].
    destruct (runTest_catch name err) as [l' o]. cbn [trace result fst snd].
    by rewrite <- !app_assoc.
  - by rewrite bind_exited.
  - by rewrite bind_stuck.
Qed.

(** [runTest] on a test that only prints and settles. *)
Lemma runTest_perform (name : string) (b : behaviour) :
  runTest name (perform b) =
    (block (name, b),
     match settles b with
     | Fulfilled _ => Returned true
     | Rejected reason => result (runTest_catch name reason)
     | Pending => Stuck
     end).
Proof.
  rewrite runTest_unfold. unfold perform, block, closing.
  rewrite bind_returned. cbn [fst snd].
  destruct (settles b) as [[] | reason | ]; cbn [await trace result fst snd].
  - by rewrite app_nil_r.
  - by rewrite app_nil_r.
  - by rewrite !app_nil_r.
Qed.

Lemma runTest_reportable (name : string) (b : behaviour) :
  reportable b = true →
  runTest name (perform b) = (block (name, b), Returned (fulfils b)).
Proof.
  intros Hb. rewrite runTest_perform. f_equal.
  unfold reportable, fulfils in *.
  destruct (settles b) as [[] | reason | ]; try done.
  rewrite runTest_catch_defined; first done.
  by destruct (nullish reason).
Qed.

(** ** The loop of [main] *)

Lemma run_tests_cons (name : string) (fn : unit → M unit) (rest : list test)
    (results : list TestResult) :
  run_tests ((name, fn) :: rest) results =
    runTest name fn ≫= λ passed,
      run_tests rest (results ++ [{| name := name; passed := passed |}]).
Proof. reflexivity. Qed.

(** Isolation, for tests that settle and do not reject with [undefined] or
    [null]: every test runs and leaves its entry, in order. *)
Lemma run_tests_reportable (tests : list (string * behaviour))
    (results : list TestResult) :
  forallb (λ t, reportable t.2) tests = true →
  run_tests (register tests) results =
    (concat (map block tests), Returned (results ++ expected tests)).
Proof.
  revert results. induction tests as [ | [name b] rest IH]; intros results Hall.
  - cbn. by rewrite app_nil_r.
  - cbn [forallb] in Hall. apply andb_prop in Hall as [Hb Hrest].
    cbn [register map fst snd]. rewrite run_tests_cons.
    rewrite runTest_reportable; last done.
    rewrite bind_returned. fold (register rest). rewrite IH; last done.
    cbn [trace result fst snd expected map concat].
    by rewrite <- app_assoc.
Qed.

Lemma run_tests_returned_length (tests : list test) (results : list TestResult)
    (l : list event) (final : list TestResult) :
  run_tests tests results = (l, Returned final) →
  length final = length results + length tests.
Proof.
  revert results l. induction tests as [ | [name fn] rest IH]; intros results l.
  - cbn. intros [= <- <-]. lia.
  - rewrite run_tests_cons.
    destruct (runTest name fn) as [l1 [passed | err | code | ]]; try done.
    rewrite bind_returned. intros [= <- Hres].
    rewrite (M_eta (run_tests rest _)) in Hres.
    destruct (run_tests rest _) as [l2 o2] eqn:Hrun. cbn in Hres. subst o2.
    apply IH in Hrun. rewrite Hrun, length_app. cbn. lia.
Qed.

(** C1, at a failing input.  The claim: whatever the mix of passing and
    failing tests, a test that raises does not keep the later ones from
    running, and the results hold one entry per test.  The loop does not
    do this when a test rejects with [undefined]: the catch block of
    [runTest] throws on reading [err.message], the TypeError leaves
    [runTest] and the loop of [main], the second test never runs (its
    mark is not on the trace), and [main] ends rejected, with no result
    sequence and no summary. *)
Theorem loop_stops_on_undefined_rejection (env : gmap string string) :
  result (run_tests (register Scenario.undefined_then_mark) []) =
    Raised (VError "TypeError"
              "Cannot read properties of undefined (reading 'message')"
              VUndefined) ∧
  trace (run_tests (register Scenario.undefined_then_mark) []) =
    trace (divider "first") ++
    [Console Err [VStr (LF +:+ "❌  first — FAILED")]] ∧
  (StdoutWrite "second test runs" ∉
     trace (Starter.main_with env (register Scenario.undefined_then_mark))) ∧
  result (Starter.main_with env (register Scenario.undefined_then_mark)) =
    Raised (VError "TypeError"
              "Cannot read properties of undefined (reading 'message')"
              VUndefined).
Proof.
  split_and!; try reflexivity.
  unfold Starter.main_with. intros Hin.
  repeat (apply elem_of_cons in Hin; destruct Hin as [Hin | Hin];
          [discriminate Hin | ]).
  by apply elem_of_nil in Hin.
Qed.

(** C2, at a failing input.  The claim: a failure of the action never
    leaves [runTest], which prints the message and returns false.  For an
    action that rejects with [undefined] or with [null], [runTest] prints
    the FAILED line and then itself ends rejected, with the TypeError
    thrown in its catch block; no message line is printed and no boolean
    is returned. *)
Theorem runTest_rejects_on_nullish_reason (name : string) (emitted : list event) :
  runTest name (perform (Behaviour emitted (Rejected VUndefined))) =
    (trace (divider name) ++ emitted ++
       [Console Err [VStr (LF +:+ "❌  " +:+ name +:+ " — FAILED")]],
     Raised (VError "TypeError"
               "Cannot read properties of undefined (reading 'message')"
               VUndefined)) ∧
  runTest name (perform (Behaviour emitted (Rejected VNull))) =
    (trace (divider name) ++ emitted ++
       [Console Err [VStr (LF +:+ "❌  " +:+ name +:+ " — FAILED")]],
     Raised (VError "TypeError"
               "Cannot read properties of null (reading 'message')"
               VUndefined)).
Proof. split; by rewrite runTest_perform. Qed.

(** ** The module bodies *)

Lemma truthy_of_env (v : option string) : truthy (of_env v) = provided v.
Proof. by destruct v as [[ | c s] | ]. Qed.

Lemma ret_bind {A B} (a : A) (k : A → M B) : mret a ≫= k = k a.
Proof. unfold mret, M_ret. rewrite bind_returned. by destruct (k a). Qed.

Lemma starter_script_configured (env : gmap string string) (tests : list test) :
  configured env = true →
  Starter.script_with env tests = catch_console_error (Starter.main_with env tests).
Proof.
  unfold configured, Starter.script_with, Starter.AZURE_ENDPOINT,
    Starter.AZURE_API_KEY.
  rewrite !truthy_of_env. intros [-> ->]%andb_prop. cbn [negb orb].
  by rewrite ret_bind.
Qed.

Lemma flux_script_configured (env : gmap string string)
    (t1 t2 t3 t4 t5 t6 t7 t8 : unit → M unit) :
  configured env = true →
  Flux.script env t1 t2 t3 t4 t5 t6 t7 t8 =
    catch_console_error (Flux.main env t1 t2 t3 t4 t5 t6 t7 t8).
Proof.
  unfold configured, Flux.script, Flux.AZURE_ENDPOINT, Flux.AZURE_API_KEY.
  rewrite !truthy_of_env. intros [-> ->]%andb_prop. cbn [negb orb].
  by rewrite ret_bind.
Qed.

(** C3: when the endpoint or the credential is absent or empty, the
    script (either one) writes one diagnostic to standard error and leaves
    with exit status 1.  Nothing else is on the trace: no test has
    started, whatever the tests are, and no call to the remote service was
    made. *)
Theorem missing_configuration_exits (env : gmap string string)
    (tests : list test) (t1 t2 t3 t4 t5 t6 t7 t8 : unit → M unit) :
  configured env = false →
  run_process (Starter.script_with env tests) =
    ([Console Err [VStr "❌  Missing AZURE_API_ENDPOINT or AZURE_API_KEY — copy .env.example → .env and fill in your values."]],
     ExitCode 1) ∧
  run_process (Flux.script env t1 t2 t3 t4 t5 t6 t7 t8) =
    ([Console Err [VStr "❌  Missing AZURE_API_ENDPOINT or AZURE_API_KEY — copy .env.example → .env and fill in your values."]],
     ExitCode 1) ∧
  remote_calls (fst (run_process (Starter.script_with env tests))) = 0.
Proof.
  intros Hmissing.
  assert (negb (truthy (of_env (env !! "AZURE_API_ENDPOINT")))
          || negb (truthy (of_env (env !! "AZURE_API_KEY"))) = true) as Hguard.
  { rewrite !truthy_of_env. unfold configured in Hmissing.
    by destruct (provided (env !! "AZURE_API_ENDPOINT")),
                (provided (env !! "AZURE_API_KEY")). }
  assert (run_process (Starter.script_with env tests) =
    ([Console Err [VStr "❌  Missing AZURE_API_ENDPOINT or AZURE_API_KEY — copy .env.example → .env and fill in your values."]],
     ExitCode 1)) as Hstarter.
  { unfold Starter.script_with, Starter.AZURE_ENDPOINT, Starter.AZURE_API_KEY.
    by rewrite Hguard. }
  split_and!.
  - exact Hstarter.
  - unfold Flux.script, Flux.AZURE_ENDPOINT, Flux.AZURE_API_KEY.
    by rewrite Hguard.
  - by rewrite Hstarter.
Qed.

Lemma missing_configuration_exits_witness :
  configured Scenario.env_no_key = false ∧
  run_process (Starter.script Scenario.env_no_key Scenario.svc_answers) =
    ([Console Err [VStr "❌  Missing AZURE_API_ENDPOINT or AZURE_API_KEY — copy .env.example → .env and fill in your values."]],
     ExitCode 1).
Proof.
  split; [reflexivity | ].
  apply (missing_configuration_exits Scenario.env_no_key
           (Starter.tests Scenario.env_no_key Scenario.svc_answers)
           Scenario.no_test Scenario.no_test Scenario.no_test Scenario.no_test
           Scenario.no_test Scenario.no_test Scenario.no_test Scenario.no_test).
  reflexivity.
Defined.

(** C10: in the enhanced suite, with the endpoint and the credential set,
    [main] prints four lines of its banner and then throws the
    ReferenceError for [MODEL_GPd].  Whatever the eight tests are, none of
    them starts and no summary is printed; the error is handed to
    [console.error] by the trailing catch, and the process leaves with
    exit status 0. *)
Theorem flux_main_throws_before_any_test (env : gmap string string)
    (t1 t2 t3 t4 t5 t6 t7 t8 : unit → M unit) :
  configured env = true →
  result (Flux.main env t1 t2 t3 t4 t5 t6 t7 t8) =
    Raised (VError "ReferenceError" "MODEL_GPd is not defined" VUndefined) ∧
  run_process (Flux.script env t1 t2 t3 t4 t5 t6 t7 t8) =
    ([ Console Out [VStr ("🚀 Vercel AI SDK v6 + Azure AI Foundry — Enhanced Integration Test Suite" +:+ LF)];
       Console Out [VStr "Configuration:"];
       Console Out [VStr ("├── Text Models Endpoint: " +:+
                          to_string (of_env (env !! "AZURE_API_ENDPOINT")))];
       Console Out [VStr ("├── Image Model Endpoint: " +:+
                          env_or (env !! "FLUX_ENDPOINT")
                            "https://jai-omi.openai.azure.com/openai/v1/")];
       Console Err [VError "ReferenceError" "MODEL_GPd is not defined" VUndefined] ],
     ExitCode 0).
Proof.
  intros Hset. split; first reflexivity.
  by rewrite flux_script_configured.
Qed.

Lemma flux_main_throws_before_any_test_witness :
  configured Scenario.env_set = true ∧
  snd (run_process
         (Flux.script Scenario.env_set
            Scenario.no_test Scenario.no_test Scenario.no_test Scenario.no_test
            Scenario.no_test Scenario.no_test Scenario.no_test Scenario.no_test)) =
    ExitCode 0.
Proof.
  split; [reflexivity | ].
  destruct (flux_main_throws_before_any_test Scenario.env_set
           Scenario.no_test Scenario.no_test Scenario.no_test Scenario.no_test
           Scenario.no_test Scenario.no_test Scenario.no_test Scenario.no_test
           eq_refl) as [_ Hrun].
  rewrite Hrun. reflexivity.
Defined.

(** ** The summary of [main] *)

Lemma print_results_trace (results : list TestResult) :
  print_results results =
    (map (λ r, Console Out
                 [VStr ("  " +:+ (if passed r then "✅" else "❌") +:+ "  " +:+ name r)])
         results,
     Returned tt).
Proof.
  induction results as [ | r rest IH]; first done.
  cbn [print_results map]. unfold console_log. rewrite bind_returned.
  by rewrite IH.
Qed.

Lemma count_passed_filter (results : list TestResult) :
  count_passed results = length (filter (λ r, passed r = true) results).
Proof.
  unfold count_passed. induction results as [ | r rest IH]; first done.
  cbn [List.filter]. rewrite filter_cons.
  destruct (passed r); cbn; by rewrite IH.
Qed.

(** The banner of the starter kit. *)
Lemma starter_main_returned (env : gmap string string) (tests : list test)
    (l : list event) (results : list TestResult) :
  run_tests tests [] = (l, Returned results) →
  Starter.main_with env tests =
    ([ Console Out [VStr ("🚀 Vercel AI SDK v6 + Azure AI Foundry — Starter Kit" +:+ LF)];
       Console Out [VStr "Endpoint:"; of_env (Starter.AZURE_ENDPOINT env)];
       Console Out [VStr "Primary model:"; VStr (Starter.MODEL_GPT env)];
       Console Out [VStr "Alternative model:";
                    or_else (VStr (Starter.MODEL_ALT env)) (VStr "(not set)")] ]
     ++ l ++ trace (divider "Summary") ++ trace (print_results results)
     ++ [Console Out [VStr (tally (count_passed results) (length results))]],
     Returned tt).
Proof.
  intros Hrun. unfold Starter.main_with, console_log.
  rewrite !bind_returned, Hrun. cbn [trace result fst snd].
  rewrite bind_returned, divider_trace, bind_returned, print_results_trace.
  rewrite bind_returned. cbn [trace result fst snd].
  by rewrite <- ?app_assoc.
Qed.

(** C4: when the loop of [main] has produced a result sequence, the last
    line [main] prints is the tally, whose first number is the number of
    entries whose [passed] field is true and whose second number is the
    length of the sequence (which is the number of tests). *)
Theorem summary_counts_entries (env : gmap string string) (tests : list test)
    (l : list event) (results : list TestResult) :
  run_tests tests [] = (l, Returned results) →
  last (trace (Starter.main_with env tests)) =
    Some (Console Out
            [VStr (LF +:+ "  " +:+
                   pretty (length (filter (λ r, passed r = true) results)) +:+
                   "/" +:+ pretty (length results) +:+ " tests passed")]) ∧
  length results = length tests.
Proof.
  intros Hrun. split.
  - rewrite (starter_main_returned env tests l results Hrun).
    cbn [trace fst]. rewrite !app_assoc, last_snoc.
    by rewrite count_passed_filter.
  - by rewrite (run_tests_returned_length _ _ _ _ Hrun).
Qed.

Lemma summary_counts_entries_witness :
  last (trace (Starter.main_with Scenario.env_set (register Scenario.A_then_B))) =
    Some (Console Out [VStr (LF +:+ "  1/2 tests passed")]).
Proof.
  exact (proj1 (summary_counts_entries Scenario.env_set
                  (register Scenario.A_then_B)
                  (trace (run_tests (register Scenario.A_then_B) []))
                  [ {| name := "A"; passed := true |};
                    {| name := "B"; passed := false |} ]
                  eq_refl)).
Defined.

(** C6: the scenario of the spec.  With the required configuration set, a
    test A that is fulfilled followed by a test B that rejects with an
    Error whose message is boom: the results are A passed, B failed; the
    last line printed is the tally 1/2; standard error received the
    FAILED line of B and the message line, so that boom is printed there
    exactly once; the process leaves with status 0. *)
Theorem scenario_A_passes_B_fails (env : gmap string string) :
  configured env = true →
  result (run_tests (register Scenario.A_then_B) []) =
    Returned [ {| name := "A"; passed := true |};
               {| name := "B"; passed := false |} ] ∧
  last (fst (run_process (Starter.script_with env (register Scenario.A_then_B)))) =
    Some (Console Out [VStr (LF +:+ "  1/2 tests passed")]) ∧
  stderr (fst (run_process (Starter.script_with env (register Scenario.A_then_B)))) =
    [ [VStr (LF +:+ "❌  B — FAILED")]; [VStr "    boom"] ] ∧
  printed "boom"
    (stderr (fst (run_process (Starter.script_with env (register Scenario.A_then_B))))) = 1 ∧
  snd (run_process (Starter.script_with env (register Scenario.A_then_B))) = ExitCode 0.
Proof.
  intros Hset. rewrite (starter_script_configured env _ Hset).
  split_and!; reflexivity.
Qed.

Lemma scenario_A_passes_B_fails_witness :
  configured Scenario.env_set = true ∧
  printed "boom"
    (stderr (fst (run_process
                    (Starter.script_with Scenario.env_set
                       (register Scenario.A_then_B))))) = 1.
Proof.
  split; [reflexivity | ].
  apply (scenario_A_passes_B_fails Scenario.env_set). reflexivity.
Defined.

(** C7: when the run completes, that is when the loop of [main] has
    produced its results, [main] is fulfilled with no value and the
    trailing catch has nothing to report, so the script does exactly what
    [main] does and the process leaves with exit status 0.  This holds for
    every result sequence: with failed entries or without, the status is
    the same, and the failures show only in what was printed. *)
Theorem exit_status_ignores_failures (env : gmap string string)
    (tests : list test) (l : list event) (results : list TestResult) :
  configured env = true →
  run_tests tests [] = (l, Returned results) →
  result (Starter.main_with env tests) = Returned tt ∧
  Starter.script_with env tests = Starter.main_with env tests ∧
  snd (run_process (Starter.script_with env tests)) = ExitCode 0.
Proof.
  intros Hset Hrun. rewrite (starter_script_configured env _ Hset).
  rewrite (starter_main_returned env tests l results Hrun).
  by split_and!.
Qed.

Lemma exit_status_ignores_failures_witness :
  configured Scenario.env_set = true ∧
  count_passed [ {| name := "A"; passed := true |};
                 {| name := "B"; passed := false |} ] = 1 ∧
  snd (run_process (Starter.script_with Scenario.env_set
                      (register Scenario.A_then_B))) = ExitCode 0.
Proof.
  split; [reflexivity | ]. split; [reflexivity | ].
  apply (exit_status_ignores_failures Scenario.env_set
           (register Scenario.A_then_B)
           (trace (run_tests (register Scenario.A_then_B) []))
           [ {| name := "A"; passed := true |};
             {| name := "B"; passed := false |} ]);
    reflexivity.
Defined.

(** ** One test at a time *)

(** A test that hangs, or that rejects with [undefined] or [null], ends the
    loop: [runTest] does not return. *)
Lemma runTest_not_reportable (name : string) (b : behaviour) :
  reportable b = false →
  ∃ o, runTest name (perform b) = (block (name, b), o) ∧
       (o = Stuck ∨ ∃ err, o = Raised err).
Proof.
  intros Hb. rewrite runTest_perform. unfold reportable in Hb.
  destruct (settles b) as [[] | reason | ]; first done.
  - apply negb_false_iff in Hb.
    destruct (runTest_catch_nullish name reason Hb) as [type_error ->].
    eexists. split; first done. right. by eexists.
  - eexists. split; first done. by left.
Qed.

(** C8: the trace of the loop is the concatenation, in the order of the
    table, of the blocks of the first [k] tests, a block being the header
    of the test, then what its action emits, then what [runTest] prints
    when the action has settled.  So the events of an action lie inside
    its own block, and the next block starts only after the previous
    action has settled: every test before the last one started did settle.
    All the tests are started unless one of them hangs or makes [runTest]
    itself throw, which ends the loop. *)
Theorem tests_run_one_at_a_time (tests : list (string * behaviour))
    (results : list TestResult) :
  ∃ k : nat,
    (k ≤ length tests)%nat ∧
    trace (run_tests (register tests) results) =
      concat (map block (take k tests)) ∧
    Forall (λ t, settles t.2 ≠ Pending) (take (pred k) tests) ∧
    (k = length tests ∨
     ∃ j t, k = S j ∧ tests !! j = Some t ∧ reportable t.2 = false).
Proof.
  revert results. induction tests as [ | [name b] rest IH]; intros results.
  - exists 0. split_and!; [done | done | done | by left].
  - cbn [register map fst snd]. fold (register rest). rewrite run_tests_cons.
    destruct (reportable b) eqn:Hb.
    + rewrite (runTest_reportable name b Hb), bind_returned.
      destruct (IH (results ++ [{| name := name; passed := fulfils b |}]))
        as (k & Hk & Htrace & Hsettled & Hlast).
      exists (S k). split_and!.
      * cbn. lia.
      * cbn [trace fst take map concat]. by rewrite Htrace.
      * cbn [pred]. destruct k as [ | k]; first done.
        cbn [take]. constructor; last done.
        cbn. unfold reportable in Hb. by destruct (settles b).
      * destruct Hlast as [-> | (j & t & -> & Hj & Ht)]; first by left.
        right. by exists (S j), t.
    + destruct (runTest_not_reportable name b Hb) as (o & -> & [-> | [err ->]]);
        [rewrite bind_stuck | rewrite bind_raised];
        exists 1; split_and!.
      all: try (cbn; lia).
      all: try (cbn [trace fst take map concat]; by rewrite app_nil_r).
      all: try done.
      all: right; by exists 0, (name, b).
Qed.

(** ** The skipped test *)

Lemma bind_assoc {A B C} (m : M A) (f : A → M B) (g : B → M C) :
  (m ≫= f) ≫= g = m ≫= (λ a, f a ≫= g).
Proof.
  destruct m as [l [a | err | code | ]]; try done.
  rewrite !bind_returned.
  destruct (f a) as [l1 [b | err | code | ]]; cbn [trace result fst snd]; try done.
  rewrite !bind_returned. cbn [trace result fst snd]. by rewrite app_assoc.
Qed.

Lemma bind_returned_inv {A B} (m : M A) (k : A → M B) (l : list event) (b : B) :
  m ≫= k = (l, Returned b) →
  ∃ l1 a l2, m = (l1, Returned a) ∧ k a = (l2, Returned b) ∧ l = l1 ++ l2.
Proof.
  destruct m as [l1 [a | err | code | ]]; try done.
  rewrite bind_returned. intros [= <- Hres].
  exists l1, a, (trace (k a)). split_and!; try done.
  rewrite (M_eta (k a)). by rewrite Hres.
Qed.

Lemma bind_ext {A B} (m : M A) (f g : A → M B) :
  (∀ a, f a = g a) → m ≫= f = m ≫= g.
Proof.
  intros Hfg. destruct m as [l [a | err | code | ]]; try done.
  by rewrite !bind_returned, Hfg.
Qed.

Lemma run_tests_app (before after : list test) (results : list TestResult) :
  run_tests (before ++ after) results =
    run_tests before results ≫= run_tests after.
Proof.
  revert results. induction before as [ | [name fn] rest IH]; intros results.
  - cbn [app run_tests]. unfold mret, M_ret. rewrite bind_returned.
    by destruct (run_tests after results).
  - cbn [app]. rewrite !run_tests_cons, bind_assoc.
    apply bind_ext. intros passed. apply IH.
Qed.

Lemma model_alt_unset (env : gmap string string) :
  provided (env !! "AZURE_MODEL_ALT") = false → Starter.MODEL_ALT env = "".
Proof.
  unfold Starter.MODEL_ALT, env_or.
  by destruct (env !! "AZURE_MODEL_ALT") as [[ | c s] | ].
Qed.

Lemma runTest_skipped (env : gmap string string) (svc : service) :
  provided (env !! "AZURE_MODEL_ALT") = false →
  runTest "6. Alternative Model" (Starter.testAlternativeModel env svc) =
    (trace (divider "6. Alternative Model") ++
       [ skip_line;
         Console Out [VStr (LF +:+ "✅  6. Alternative Model — PASSED")] ],
     Returned true).
Proof.
  intros Hunset. rewrite runTest_unfold.
  unfold Starter.testAlternativeModel. by rewrite (model_alt_unset env Hunset).
Qed.

(** C5, as the spec words it, fails: with [AZURE_MODEL_ALT] unset and a
    service that answers, the results do hold an entry for the
    alternative-model test. *)
Lemma skip_is_recorded :
  ¬ skipped_and_unrecorded Scenario.env_set Scenario.svc_answers.
Proof.
  intros (_ & _ & _ & Hnone).
  apply (Hnone (trace (run_tests (Starter.tests Scenario.env_set Scenario.svc_answers) []))
           [ {| name := "1. Generate Text (Foundry Provider)"; passed := true |};
             {| name := "2. Stream Text (Foundry Provider)"; passed := true |};
             {| name := "3. Multi-turn Conversation"; passed := true |};
             {| name := "4. Tool Calling (@ai-sdk/openai)"; passed := true |};
             {| name := "5. OpenAI-Compatible Provider"; passed := true |};
             {| name := "6. Alternative Model"; passed := true |} ]
           eq_refl
           {| name := "6. Alternative Model"; passed := true |});
    last reflexivity.
  set_solver.
Qed.

(** C5, amended: when [AZURE_MODEL_ALT] is unset or empty, the
    alternative-model test makes no call to the remote service and is not
    a failure; it prints its skip line and returns, so [runTest] prints
    PASSED for it and returns true, and in the results of a full run its
    entry is the last one, with [passed] true: the skip is recorded, and
    counted, as a pass, in the passed-count and in the total of the tally
    that [main] prints last. *)
Theorem skip_is_recorded_as_passed (env : gmap string string) (svc : service) :
  provided (env !! "AZURE_MODEL_ALT") = false →
  remote_calls
    (trace (runTest "6. Alternative Model" (Starter.testAlternativeModel env svc))) = 0 ∧
  runTest "6. Alternative Model" (Starter.testAlternativeModel env svc) =
    (trace (divider "6. Alternative Model") ++
       [ skip_line;
         Console Out [VStr (LF +:+ "✅  6. Alternative Model — PASSED")] ],
     Returned true) ∧
  ∀ l results,
    run_tests (Starter.tests env svc) [] = (l, Returned results) →
    ∃ earlier,
      results = earlier ++ [{| name := "6. Alternative Model"; passed := true |}] ∧
      length earlier = 5 ∧
      count_passed results = S (count_passed earlier) ∧
      length results = 6 ∧
      last (trace (Starter.main env svc)) =
        Some (Console Out
                [VStr (LF +:+ "  " +:+ pretty (S (count_passed earlier)) +:+
                       "/" +:+ pretty 6 +:+ " tests passed")]).
Proof.
  intros Hunset. rewrite (runTest_skipped env svc Hunset). split_and!.
  - reflexivity.
  - reflexivity.
  - intros l results Hrun. pose proof Hrun as Hfull.
    change (Starter.tests env svc) with
      ([ ("1. Generate Text (Foundry Provider)", Starter.testGenerateText env svc);
         ("2. Stream Text (Foundry Provider)", Starter.testStreamText env svc);
         ("3. Multi-turn Conversation", Starter.testConversation env svc);
         ("4. Tool Calling (@ai-sdk/openai)", Starter.testToolCalling env svc);
         ("5. OpenAI-Compatible Provider", Starter.testOpenAICompatProvider env svc) ]
       ++ [("6. Alternative Model", Starter.testAlternativeModel env svc)]) in Hrun.
    rewrite run_tests_app in Hrun.
    apply bind_returned_inv in Hrun as (l1 & earlier & l2 & Hearlier & Hlast & _).
    rewrite run_tests_cons, (runTest_skipped env svc Hunset), bind_returned in Hlast.
    cbn in Hlast. injection Hlast as _ <-.
    apply run_tests_returned_length in Hearlier. cbn [length] in Hearlier.
    assert (count_passed
              (earlier ++ [{| name := "6. Alternative Model"; passed := true |}]) =
            S (count_passed earlier)) as Hcount.
    { unfold count_passed. rewrite List.filter_app, length_app. cbn. lia. }
    exists earlier. split_and!.
    + reflexivity.
    + exact Hearlier.
    + exact Hcount.
    + rewrite length_app, Hearlier. reflexivity.
    + unfold Starter.main.
      rewrite (starter_main_returned env _ l _ Hfull). cbn [trace fst].
      rewrite !app_assoc, last_snoc, Hcount, length_app, Hearlier.
      reflexivity.
Qed.

Lemma skip_is_recorded_as_passed_witness :
  provided (Scenario.env_set !! "AZURE_MODEL_ALT") = false ∧
  result (runTest "6. Alternative Model"
            (Starter.testAlternativeModel Scenario.env_set Scenario.svc_answers)) =
    Returned true.
Proof.
  split; [reflexivity | ].
  rewrite (proj1 (proj2 (skip_is_recorded_as_passed Scenario.env_set
                           Scenario.svc_answers eq_refl))).
  reflexivity.
Defined.

(** ** The tool-call loop *)

Lemma remote_calls_app (l1 l2 : list event) :
  remote_calls (l1 ++ l2) = remote_calls l1 + remote_calls l2.
Proof. unfold remote_calls. by rewrite List.filter_app, length_app. Qed.

(** One requested invocation: no request goes out, the callback runs at
    most once and only on a validated input, and an output comes back. *)
Lemma call_tool_getWeather (tc : tool_call) :
  remote_calls (trace (call_tool {[ "getWeather" := Starter.getWeather ]} tc)) = 0 ∧
  Forall validated (trace (call_tool {[ "getWeather" := Starter.getWeather ]} tc)) ∧
  ∃ o, result (call_tool {[ "getWeather" := Starter.getWeather ]} tc) = Returned o.
Proof.
  unfold call_tool.
  destruct (decide (toolName tc = "getWeather")) as [Hname | Hname].
  - rewrite Hname, lookup_singleton_eq. cbn [inputSchema Starter.getWeather].
    destruct (Starter.getWeather_inputSchema (input tc)) as [i | ] eqn:Hschema.
    + split_and!; [done | | by eexists].
      repeat constructor. by rewrite Hschema.
    + split_and!; [done | constructor | by eexists].
  - rewrite lookup_singleton_ne; last done.
    split_and!; [done | constructor | by eexists].
Qed.

Lemma call_tools_getWeather (tcs : list tool_call) :
  remote_calls (trace (call_tools {[ "getWeather" := Starter.getWeather ]} tcs)) = 0 ∧
  Forall validated (trace (call_tools {[ "getWeather" := Starter.getWeather ]} tcs)) ∧
  ∃ os, result (call_tools {[ "getWeather" := Starter.getWeather ]} tcs) = Returned os.
Proof.
  induction tcs as [ | tc rest (IHcalls & IHvalid & os & IHres)].
  - split_and!; [done | constructor | by eexists].
  - cbn [call_tools].
    destruct (call_tool_getWeather tc) as (Hcalls & Hvalid & o & Hres).
    rewrite (M_eta (call_tool _ tc)), Hres, bind_returned.
    rewrite (M_eta (call_tools _ rest)), IHres, bind_returned.
    cbn [trace result fst snd]. rewrite app_nil_r.
    split_and!.
    + rewrite remote_calls_app. lia.
    + by apply Forall_app.
    + by eexists.
Qed.

(** The loop, by induction on the round trips left. *)
Lemma tool_loop_bounded (svc : service) (req : request) (stepCount : nat)
    (steps : list step) :
  (remote_calls
     (trace (tool_loop svc req {[ "getWeather" := Starter.getWeather ]} stepCount steps))
   ≤ stepCount)%nat ∧
  Forall validated
    (trace (tool_loop svc req {[ "getWeather" := Starter.getWeather ]} stepCount steps)).
Proof.
  revert steps. induction stepCount as [ | remaining IH]; intros steps.
  - split; [done | constructor].
  - cbn [tool_loop]. rewrite bind_returned.
    destruct (decides svc req steps) as [r | reason | ];
      cbn [await]; try (split; [cbn; lia | repeat constructor]).
    unfold mret, M_ret. rewrite bind_returned.
    destruct (call_tools_getWeather (toolCalls r)) as (Hcalls & Hvalid & os & Hres).
    rewrite (M_eta (call_tools _ (toolCalls r))), Hres, bind_returned.
    destruct (IH (steps ++ [Step r os])) as [IHcalls IHvalid].
    cbn [trace result fst snd]. rewrite !remote_calls_app, Hcalls.
    destruct (toolCalls r) as [ | tc more].
    + split; [cbn; lia | ]. repeat (apply Forall_app; split); try done.
      repeat constructor.
    + split; [cbn in *; lia | ].
      repeat (apply Forall_app; split); try done. repeat constructor.
Qed.

(** When the model answers every round trip, the loop returns. *)
Lemma tool_loop_returns (completes : request → settled generated)
    (streams : request → list string * settled unit)
    (answer : request → list step → reply) (req : request) (stepCount : nat)
    (steps : list step) :
  ∃ final,
    result (tool_loop (Service completes streams (λ r s, Fulfilled (answer r s)))
              req {[ "getWeather" := Starter.getWeather ]} stepCount steps) =
      Returned final.
Proof.
  revert steps. induction stepCount as [ | remaining IH]; intros steps.
  - by eexists.
  - cbn [tool_loop decides await]. rewrite bind_returned, ret_bind.
    destruct (call_tools_getWeather (toolCalls (answer req steps)))
      as (_ & _ & os & Hres).
    rewrite (M_eta (call_tools _ _)), Hres, bind_returned.
    cbn [trace result fst snd].
    destruct (toolCalls (answer req steps)); [by eexists | apply IH].
Qed.

(** What the tool-calling test prints after the loop. *)
Lemma testToolCalling_unfold (env : gmap string string) (svc : service) :
  ∃ after : list step → list event,
    (∀ steps, remote_calls (after steps) = 0 ∧ Forall validated (after steps)) ∧
    Starter.testToolCalling env svc tt =
      match tool_loop svc
              (Request AzureViaOpenAI (Starter.MODEL_GPT env)
                 (Prompt "What's the weather in San Francisco and Tokyo?"))
              {[ "getWeather" := Starter.getWeather ]} Starter.stepCount [] with
      | (l, Returned steps) => (l ++ after steps, Returned tt)
      | (l, Raised err) => (l, Raised err)
      | (l, Exited code) => (l, Exited code)
      | (l, Stuck) => (l, Stuck)
      end.
Proof.
  eexists. split; last first.
  - unfold Starter.testToolCalling.
    by destruct (tool_loop _ _ _ _ _) as [l [steps | err | code | ]].
  - intros steps. split; first reflexivity. repeat constructor.
Qed.

(** C9: the tool-calling test sets the step bound to 5, and whatever the
    remote model answers, the test sends at most 5 requests to it; every
    callback that runs locally is [getWeather] on an input its schema has
    accepted; and when the model answers every round trip, the test
    returns. *)
Theorem tool_calling_is_bounded (env : gmap string string) (svc : service)
    (completes : request → settled generated)
    (streams : request → list string * settled unit)
    (answer : request → list step → reply) :
  Starter.stepCount = 5 ∧
  (remote_calls (trace (Starter.testToolCalling env svc tt)) ≤ 5)%nat ∧
  Forall validated (trace (Starter.testToolCalling env svc tt)) ∧
  result (Starter.testToolCalling env
            (Service completes streams (λ r s, Fulfilled (answer r s))) tt) =
    Returned tt.
Proof.
  split; first reflexivity.
  destruct (testToolCalling_unfold env svc) as (after & Hafter & ->).
  destruct (tool_loop_bounded svc
              (Request AzureViaOpenAI (Starter.MODEL_GPT env)
                 (Prompt "What's the weather in San Francisco and Tokyo?"))
              Starter.stepCount []) as [Hcalls Hvalid].
  split_and!.
  - destruct (tool_loop _ _ _ _ _) as [l [steps | err | code | ]];
      cbn [trace fst] in *; try exact Hcalls.
    rewrite remote_calls_app, (proj1 (Hafter steps)).
    change Starter.stepCount with 5 in Hcalls. lia.
  - destruct (tool_loop _ _ _ _ _) as [l [steps | err | code | ]];
      cbn [trace fst] in *; try exact Hvalid.
    apply Forall_app. split; [exact Hvalid | apply Hafter].
  - destruct (testToolCalling_unfold env
                (Service completes streams (λ r s, Fulfilled (answer r s))))
      as (after' & _ & ->).
    destruct (tool_loop_returns completes streams answer
                (Request AzureViaOpenAI (Starter.MODEL_GPT env)
                   (Prompt "What's the weather in San Francisco and Tokyo?"))
                Starter.stepCount []) as [final Hfinal].
    by rewrite (M_eta (tool_loop _ _ _ _ _)), Hfinal.
Qed.

(** The bound is reached by a model that asks for a tool at every round
    trip: five requests, and of the ten invocations asked for, the five
    whose input the schema accepts are run. *)
Example tool_calling_five_round_trips :
  remote_calls
    (trace (Starter.testToolCalling Scenario.env_set Scenario.svc_asks_forever tt)) = 5 ∧
  List.filter is_tool
    (trace (Starter.testToolCalling Scenario.env_set Scenario.svc_asks_forever tt)) =
    replicate 5
      (Tool "getWeather"
         {[ "location" := VStr "Tokyo"; "unit" := VStr "fahrenheit" ]}).
Proof. split; vm_compute; reflexivity. Qed.

(** The callback of [getWeather] on its table. *)
Example getWeather_tokyo_fahrenheit :
  Starter.getWeather_execute
    {| Starter.location := "Tokyo"; Starter.unit_ := Some Starter.fahrenheit |} =
    mret "Tokyo: 72°F, partly cloudy".
Proof. reflexivity. Qed.

Example getWeather_unknown_city :
  Starter.getWeather_execute
    {| Starter.location := "Oslo"; Starter.unit_ := None |} =
    mret "Oslo: 20°C, partly cloudy".
Proof. reflexivity. Qed.

(** * Further properties of the harness *)

(** ** Sequencing, in general *)

Lemma bind_trace {A B} (m : M A) (k : A → M B) :
  trace (m ≫= k) =
    trace m ++ match result m with Returned a => trace (k a) | _ => [] end.
Proof.
  destruct m as [l [a | err | code | ]]; cbn [trace result fst snd].
  - by rewrite bind_returned.
  - by rewrite app_nil_r.
  - by rewrite app_nil_r.
  - by rewrite app_nil_r.
Qed.

Lemma bind_result {A B} (m : M A) (k : A → M B) :
  result (m ≫= k) =
    match result m with
    | Returned a => result (k a)
    | Raised err => Raised err
    | Exited code => Exited code
    | Stuck => Stuck
    end.
Proof.
  destruct m as [l [a | err | code | ]]; cbn [trace result fst snd]; try done.
  by rewrite bind_returned.
Qed.

Lemma catch_trace (m : M unit) :
  trace (catch_console_error m) =
    trace m ++ match result m with Raised err => [Console Err [err]] | _ => [] end.
Proof.
  destruct m as [l [[] | err | code | ]]; cbn; by rewrite ?app_nil_r.
Qed.

Lemma catch_result (m : M unit) :
  result (catch_console_error m) =
    match result m with Raised _ => Returned tt | o => o end.
Proof. by destruct m as [l [[] | err | code | ]]. Qed.

(** ** What [runTest] reports *)

(** X1: an action that is fulfilled, or that rejects with a string, a
    boolean, an Error object or an array of such values (the values of
    the model other than [undefined] and [null]; symbols and objects
    without a prototype are not among them), never makes [runTest]
    throw, exit or hang: [runTest] prints the header, lets the action
    print, prints its verdict and returns true exactly when the action
    was fulfilled. *)
Theorem runTest_returns_verdict (name : string) (b : behaviour) :
  reportable b = true →
  runTest name (perform b) =
    (trace (divider name) ++ emits b ++ closing name (settles b),
     Returned (fulfils b)) ∧
  (fulfils b = true → stderr (closing name (settles b)) = []).
Proof.
  intros Hb. split; first exact (runTest_reportable name b Hb).
  unfold fulfils. by destruct (settles b).
Qed.

Lemma runTest_returns_verdict_witness :
  reportable Scenario.B = true ∧
  result (runTest "B" (perform Scenario.B)) = Returned false.
Proof.
  split; [reflexivity | ].
  rewrite (proj1 (runTest_returns_verdict "B" Scenario.B eq_refl)).
  reflexivity.
Defined.

(** X2: a test that throws a string (not an Error) is reported with the
    string itself as its message, through the fallback of
    [err.message || err]; no cause line follows. *)
Theorem runTest_reports_thrown_string (name s : string) (emitted : list event) :
  runTest name (perform (Behaviour emitted (Rejected (VStr s)))) =
    (trace (divider name) ++ emitted ++
       [ Console Err [VStr (LF +:+ "❌  " +:+ name +:+ " — FAILED")];
         Console Err [VStr ("    " +:+ s)] ],
     Returned false).
Proof.
  rewrite runTest_perform. cbn [settles emits].
  unfold block, closing. cbn [fst snd settles emits].
  destruct s as [ | c s]; reflexivity.
Qed.

(** X3: for a thrown Error the message line shows the message alone,
    without the name of the error class; an Error with an empty message
    is shown by its name; the cause line is printed exactly when the
    cause is truthy. *)
Theorem runTest_reports_error (name : string) (emitted : list event)
    (class message : string) (cause : value) :
  runTest name (perform (Behaviour emitted (Rejected (VError class message cause)))) =
    (trace (divider name) ++ emitted ++
       [ Console Err [VStr (LF +:+ "❌  " +:+ name +:+ " — FAILED")];
         Console Err
           [VStr ("    " +:+ (if String.eqb message "" then class else message))] ]
       ++ (if truthy cause then [Console Err [VStr "    Cause:"; cause]] else []),
     Returned false).
Proof.
  rewrite runTest_perform. cbn [settles emits].
  unfold block, closing. cbn [fst snd settles emits].
  rewrite runTest_catch_defined; last done.
  cbn [trace result fst snd]. f_equal. f_equal. f_equal.
  destruct message as [ | c m].
  - cbn. by destruct class.
  - reflexivity.
Qed.

(** ** What the loop and [main] do with a table of tests *)

(** X4: isolation, as far as it is proved.  When every action is
    fulfilled or rejects with a string, a boolean, an Error object or an
    array of such values (the values of the model other than [undefined]
    and [null]; symbols and objects without a prototype are not among
    them), every test runs, in the order of the table, each inside its
    own block of the trace, and the results hold one entry per test in
    that order, [passed] telling whether the action was fulfilled. *)
Theorem settled_tests_all_run (tests : list (string * behaviour))
    (results : list TestResult) :
  forallb (λ t, reportable t.2) tests = true →
  run_tests (register tests) results =
    (concat (map block tests),
     Returned (results ++
               map (λ t, {| name := t.1; passed := fulfils t.2 |}) tests)).
Proof. exact (run_tests_reportable tests results). Qed.

Lemma settled_tests_all_run_witness :
  forallb (λ t, reportable t.2) Scenario.A_then_B = true ∧
  result (run_tests (register Scenario.A_then_B) []) =
    Returned [ {| name := "A"; passed := true |};
               {| name := "B"; passed := false |} ].
Proof.
  split; [reflexivity | ].
  rewrite (settled_tests_all_run Scenario.A_then_B [] eq_refl).
  reflexivity.
Defined.

Lemma register_app (before after : list (string * behaviour)) :
  register (before ++ after) = register before ++ register after.
Proof. unfold register. by rewrite map_app. Qed.

Lemma starter_main_trace (env : gmap string string) (tests : list test) :
  trace (Starter.main_with env tests) =
    banner env ++ trace (run_tests tests []) ++
    match result (run_tests tests []) with
    | Returned results =>
        trace (divider "Summary") ++ trace (print_results results) ++
        [Console Out [VStr (tally (count_passed results) (length results))]]
    | _ => []
    end.
Proof.
  destruct (run_tests tests []) as [l o] eqn:Hrun. destruct o as [results | err | code | ].
  - by rewrite (starter_main_returned env tests l results Hrun).
  - unfold Starter.main_with, console_log. rewrite !bind_returned, Hrun.
    cbn [trace result fst snd]. by rewrite bind_raised, app_nil_r.
  - unfold Starter.main_with, console_log. rewrite !bind_returned, Hrun.
    cbn [trace result fst snd]. by rewrite bind_exited, app_nil_r.
  - unfold Starter.main_with, console_log. rewrite !bind_returned, Hrun.
    cbn [trace result fst snd]. by rewrite bind_stuck, app_nil_r.
Qed.

Lemma starter_main_result (env : gmap string string) (tests : list test) :
  result (Starter.main_with env tests) =
    match result (run_tests tests []) with
    | Returned _ => Returned tt
    | Raised err => Raised err
    | Exited code => Exited code
    | Stuck => Stuck
    end.
Proof.
  destruct (run_tests tests []) as [l o] eqn:Hrun. destruct o as [results | err | code | ].
  - by rewrite (starter_main_returned env tests l results Hrun).
  - unfold Starter.main_with, console_log. rewrite !bind_returned, Hrun.
    cbn [trace result fst snd]. by rewrite bind_raised.
  - unfold Starter.main_with, console_log. rewrite !bind_returned, Hrun.
    cbn [trace result fst snd]. by rewrite bind_exited.
  - unfold Starter.main_with, console_log. rewrite !bind_returned, Hrun.
    cbn [trace result fst snd]. by rewrite bind_stuck.
Qed.

Lemma run_tests_stalls (before after : list (string * behaviour))
    (name : string) (b : behaviour) (results : list TestResult) :
  forallb (λ t, reportable t.2) before = true →
  settles b = Pending →
  run_tests (register (before ++ (name, b) :: after)) results =
    (concat (map block before) ++ trace (divider name) ++ emits b, Stuck).
Proof.
  intros Hbefore Hb.
  rewrite register_app, run_tests_app, (run_tests_reportable _ _ Hbefore).
  rewrite bind_returned. cbn [register map fst snd]. rewrite run_tests_cons.
  rewrite runTest_perform, Hb, bind_stuck. unfold block, closing.
  cbn [trace result fst snd]. by rewrite Hb, app_nil_r.
Qed.

(** X5: there is no timeout.  When the tests before it have settled
    (each fulfilled, or rejected with a string, a boolean, an Error
    object or an array of such values) and one action never settles, the
    run stops inside that test: its header and what it printed so far are
    the last events, no later test starts, no summary is printed, and the
    script is left awaiting: neither [main] nor the trailing catch ever
    gets to run again. *)
Theorem pending_test_stalls_the_run (env : gmap string string)
    (before after : list (string * behaviour)) (name : string) (b : behaviour) :
  configured env = true →
  forallb (λ t, reportable t.2) before = true →
  settles b = Pending →
  Starter.script_with env (register (before ++ (name, b) :: after)) =
    (banner env ++ concat (map block before) ++ trace (divider name) ++ emits b,
     Stuck).
Proof.
  intros Hset Hbefore Hb. rewrite (starter_script_configured env _ Hset).
  rewrite (M_eta (catch_console_error _)), catch_trace, catch_result.
  rewrite starter_main_result, starter_main_trace.
  rewrite (run_tests_stalls before after name b [] Hbefore Hb).
  cbn [trace result fst snd]. by rewrite !app_nil_r.
Qed.

Lemma pending_test_stalls_the_run_witness :
  configured Scenario.env_set = true ∧
  result (Starter.script_with Scenario.env_set (register Runs.A_then_stall)) = Stuck.
Proof.
  split; [reflexivity | ].
  exact (f_equal snd
           (pending_test_stalls_the_run Scenario.env_set
              [("A", Scenario.A)] [("second", Scenario.marks)] "stall"
              Runs.never_settles eq_refl eq_refl eq_refl)).
Defined.

Lemma count_passed_expected (tests : list (string * behaviour)) :
  count_passed (expected tests) = length (List.filter (λ t, fulfils t.2) tests).
Proof.
  unfold count_passed, expected.
  induction tests as [ | [name b] rest IH]; first done.
  cbn [map List.filter passed fst snd]. destruct (fulfils b); cbn; by rewrite IH.
Qed.

(** X6: the whole report of a run in which every action is fulfilled or
    rejects with a string, a boolean, an Error object or an array of such
    values (the values of the model other than [undefined] and [null];
    symbols and objects without a prototype are not among them): the
    banner, the block of each test in the order of the table, the Summary
    header, one line per test in the same order with its glyph, and the
    tally of fulfilled actions over the number of tests; [main] then
    returns. *)
Theorem main_reports_every_test (env : gmap string string)
    (tests : list (string * behaviour)) :
  forallb (λ t, reportable t.2) tests = true →
  Starter.main_with env (register tests) =
    (banner env ++ concat (map block tests) ++ trace (divider "Summary") ++
     map (λ t, summary_line {| name := t.1; passed := fulfils t.2 |}) tests ++
     [Console Out
        [VStr (LF +:+ "  " +:+
               pretty (length (List.filter (λ t, fulfils t.2) tests)) +:+ "/" +:+
               pretty (length tests) +:+ " tests passed")]],
     Returned tt).
Proof.
  intros Hall.
  rewrite (starter_main_returned env (register tests) (concat (map block tests))
             (expected tests)).
  - rewrite print_results_trace, count_passed_expected. cbn [trace fst].
    unfold expected at 1 2. rewrite map_map, length_map. reflexivity.
  - by rewrite (run_tests_reportable tests [] Hall).
Qed.

Lemma main_reports_every_test_witness :
  forallb (λ t, reportable t.2) Scenario.A_then_B = true ∧
  result (Starter.main_with Scenario.env_set (register Scenario.A_then_B)) =
    Returned tt.
Proof.
  split; [reflexivity | ].
  exact (f_equal snd
           (main_reports_every_test Scenario.env_set Scenario.A_then_B eq_refl)).
Defined.

Lemma run_tests_result_kind (tests : list (string * behaviour))
    (results : list TestResult) :
  match result (run_tests (register tests) results) with
  | Returned _ | Raised _ => hangs tests = false
  | Stuck => hangs tests = true
  | Exited _ => False
  end.
Proof.
  revert results. induction tests as [ | [name b] rest IH]; intros results.
  - reflexivity.
  - cbn [register map fst snd]. fold (register rest). rewrite run_tests_cons.
    unfold hangs. cbn [List.find fst snd].
    destruct (reportable b) eqn:Hb; cbn [negb].
    + rewrite (runTest_reportable name b Hb), bind_returned.
      cbn [trace result fst snd]. apply IH.
    + rewrite runTest_perform. unfold reportable in Hb. cbn [fst snd].
      destruct (settles b) as [[] | reason | ]; first done.
      * apply negb_false_iff in Hb.
        destruct (runTest_catch_nullish name reason Hb) as [type_error ->].
        cbn [result snd]. by rewrite bind_raised.
      * by rewrite bind_stuck.
Qed.

(** X7: how the starter kit ends, for every environment and every table
    of tests that are fulfilled, rejected (with any value of the model,
    [undefined] and [null] included) or never settle.  The script exits
    with 1 exactly when the endpoint or the credential is missing;
    otherwise it is left awaiting when the run reaches an action that
    never settles, and in every other case it ends normally and the
    process leaves with status 0, failed tests and a TypeError that
    escapes the loop included: the trailing catch swallows it. *)
Theorem exit_status_of_the_script (env : gmap string string)
    (tests : list (string * behaviour)) :
  result (Starter.script_with env (register tests)) =
    (if configured env then
       if hangs tests then Stuck else Returned tt
     else Exited 1) ∧
  (hangs tests = false →
   snd (run_process (Starter.script_with env (register tests))) =
     ExitCode (if configured env then 0 else 1)).
Proof.
  assert (result (Starter.script_with env (register tests)) =
            (if configured env then
               if hangs tests then Stuck else Returned tt
             else Exited 1)) as Hresult.
  { destruct (configured env) eqn:Hset.
    - rewrite (starter_script_configured env _ Hset).
      rewrite catch_result, starter_main_result.
      pose proof (run_tests_result_kind tests []) as Hkind.
      destruct (result (run_tests (register tests) [])) as [final | err | code | ];
        try done; by rewrite Hkind.
    - unfold configured in Hset. unfold Starter.script_with, Starter.AZURE_ENDPOINT,
        Starter.AZURE_API_KEY. rewrite !truthy_of_env.
      by destruct (provided (env !! "AZURE_API_ENDPOINT")),
                  (provided (env !! "AZURE_API_KEY")). }
  split; first exact Hresult.
  intros Hno. rewrite Hno in Hresult.
  rewrite (M_eta (Starter.script_with env (register tests))), Hresult.
  by destruct (configured env).
Qed.

Lemma exit_status_of_the_script_witness :
  hangs Scenario.undefined_then_mark = false ∧
  snd (run_process (Starter.script_with Scenario.env_set
                      (register Scenario.undefined_then_mark))) = ExitCode 0.
Proof.
  split; [reflexivity | ].
  exact (proj2 (exit_status_of_the_script Scenario.env_set
                  Scenario.undefined_then_mark) eq_refl).
Defined.

Lemma stderr_app (l1 l2 : list event) : stderr (l1 ++ l2) = stderr l1 ++ stderr l2.
Proof.
  induction l1 as [ | e l1 IH]; first done.
  destruct e as [[] args | chunk | r | tool input]; cbn; by rewrite IH.
Qed.

Lemma stderr_summary_lines (results : list TestResult) :
  stderr (trace (print_results results)) = [].
Proof.
  rewrite print_results_trace. cbn [trace fst].
  by induction results as [ | r rest IH].
Qed.

Lemma stderr_blocks_fulfilled (tests : list (string * behaviour)) :
  forallb (λ t, fulfils t.2) tests = true →
  stderr (concat (map block tests)) = concat (map (λ t, stderr (emits t.2)) tests).
Proof.
  induction tests as [ | [name b] rest IH]; first done.
  cbn [forallb map concat fst snd]. intros [Hb Hrest]%andb_prop.
  rewrite stderr_app, (IH Hrest). f_equal.
  unfold block, closing, fulfils in *. cbn [fst snd].
  destruct (settles b) as [[] | reason | ]; try done.
  rewrite !stderr_app. cbn. by rewrite app_nil_r.
Qed.

(** X8: when every action is fulfilled, nothing the harness itself prints
    goes to standard error: what arrives there is what the actions wrote
    there, in order. *)
Theorem stderr_is_the_tests_own_when_all_pass (env : gmap string string)
    (tests : list (string * behaviour)) :
  configured env = true →
  forallb (λ t, fulfils t.2) tests = true →
  stderr (fst (run_process (Starter.script_with env (register tests)))) =
    concat (map (λ t, stderr (emits t.2)) tests).
Proof.
  intros Hset Hall.
  assert (forallb (λ t, reportable t.2) tests = true) as Hrep.
  { apply forallb_forall. intros t Ht.
    pose proof (proj1 (forallb_forall _ _) Hall t Ht) as Hf.
    unfold reportable, fulfils in *. by destruct (settles t.2). }
  rewrite (starter_script_configured env _ Hset).
  rewrite (starter_main_returned env (register tests) (concat (map block tests))
             (expected tests)); last by rewrite (run_tests_reportable tests [] Hrep).
  cbn [catch_console_error try_catch run_process fst].
  rewrite !stderr_app, stderr_summary_lines, (stderr_blocks_fulfilled tests Hall).
  cbn. by rewrite app_nil_r.
Qed.

Lemma stderr_is_the_tests_own_when_all_pass_witness :
  configured Scenario.env_set = true ∧
  stderr (fst (run_process
                 (Starter.script_with Scenario.env_set
                    (register [("A", Scenario.A); ("second", Scenario.marks)])))) = [].
Proof.
  split; [reflexivity | ].
  exact (stderr_is_the_tests_own_when_all_pass Scenario.env_set
           [("A", Scenario.A); ("second", Scenario.marks)] eq_refl eq_refl).
Defined.

(** ** The requests of a run *)

Lemma requests_app (l1 l2 : list event) :
  requests (l1 ++ l2) = requests l1 ++ requests l2.
Proof.
  induction l1 as [ | e l1 IH]; first done.
  destruct e as [s args | chunk | r | tool input]; cbn; by rewrite IH.
Qed.

Lemma remote_calls_requests (l : list event) :
  remote_calls l = length (requests l).
Proof.
  unfold remote_calls. induction l as [ | e l IH]; first done.
  destruct e as [s args | chunk | r | tool input]; cbn; by rewrite ?IH.
Qed.

Lemma requests_runTest_catch (name : string) (err : value) :
  requests (trace (runTest_catch name err)) = [].
Proof.
  destruct err as [ | | b | s | items | class message cause]; try reflexivity.
  unfold runTest_catch. cbn. by destruct (truthy cause).
Qed.

(** [runTest] sends nothing of its own. *)
Lemma requests_runTest (name : string) (fn : unit → M unit) :
  requests (trace (runTest name fn)) = requests (trace (fn tt)).
Proof.
  rewrite runTest_unfold, divider_trace.
  destruct (fn tt) as [l [[] | err | code | ]]; cbn [trace fst];
    rewrite ?requests_app, ?requests_runTest_catch; cbn; by rewrite ?app_nil_r.
Qed.

(** The loop sends what its tests send, as far as it gets. *)
Lemma requests_run_tests (tests : list test) (results : list TestResult) :
  requests (trace (run_tests tests results)) `prefix_of`
    concat (map (λ t, requests (trace (t.2 tt))) tests).
Proof.
  revert results. induction tests as [ | [name fn] rest IH]; intros results.
  - apply prefix_nil.
  - rewrite run_tests_cons, bind_trace, requests_app, requests_runTest.
    cbn [map concat fst snd]. apply prefix_app.
    destruct (result (runTest name fn)); try apply prefix_nil. apply IH.
Qed.

Lemma requests_starter_main (env : gmap string string) (tests : list test) :
  requests (trace (Starter.main_with env tests)) =
    requests (trace (run_tests tests [])).
Proof.
  rewrite starter_main_trace, !requests_app.
  destruct (result (run_tests tests [])) as [results | err | code | ];
    cbn [banner requests app]; rewrite ?app_nil_r; try done.
  rewrite !requests_app, divider_trace, print_results_trace. cbn [trace fst].
  assert (∀ rs : list TestResult,
            requests (map (λ r, Console Out
                [VStr ("  " +:+ (if passed r then "✅" else "❌") +:+ "  " +:+ name r)])
              rs) = []) as Hlines.
  { intros rs. by induction rs. }
  rewrite Hlines. cbn. by rewrite app_nil_r.
Qed.

Lemma requests_starter_script (env : gmap string string) (tests : list test) :
  requests (fst (run_process (Starter.script_with env tests))) =
    if configured env then requests (trace (run_tests tests [])) else [].
Proof.
  destruct (configured env) eqn:Hset.
  - rewrite (starter_script_configured env _ Hset).
    rewrite <- (requests_starter_main env tests).
    destruct (Starter.main_with env tests) as [l [[] | err | code | ]];
      cbn; rewrite ?requests_app; cbn; by rewrite ?app_nil_r.
  - unfold configured in Hset. unfold Starter.script_with, Starter.AZURE_ENDPOINT,
      Starter.AZURE_API_KEY. rewrite !truthy_of_env.
    by destruct (provided (env !! "AZURE_API_ENDPOINT")),
                (provided (env !! "AZURE_API_KEY")).
Qed.

(** ** The requests of each test *)

Lemma generateText_unfold (svc : service) (req : request) :
  generateText svc req =
    ([Remote req],
     match completes svc req with
     | Fulfilled g => Returned g
     | Rejected reason => Raised reason
     | Pending => Stuck
     end).
Proof.
  unfold generateText. rewrite bind_returned.
  by destruct (completes svc req).
Qed.

Lemma for_each_write (chunks : list string) (body : string → M unit) :
  (∀ chunk, body chunk = stdout_write chunk) →
  for_each chunks body = (map StdoutWrite chunks, Returned tt).
Proof.
  intros Hbody. induction chunks as [ | chunk more IH]; first done.
  cbn [for_each map]. rewrite IH, Hbody. unfold stdout_write.
  by rewrite bind_returned.
Qed.

Lemma requests_writes (chunks : list string) :
  requests (map StdoutWrite chunks) = [].
Proof. by induction chunks. Qed.

Lemma requests_testGenerateText (env : gmap string string) (svc : service) :
  requests (trace (Starter.testGenerateText env svc tt)) = [request_1 env].
Proof.
  unfold Starter.testGenerateText. rewrite generateText_unfold.
  fold (request_1 env).
  destruct (completes svc (request_1 env)) as [[t [u | ]] | reason | ]; reflexivity.
Qed.

Lemma requests_testConversation (env : gmap string string) (svc : service) :
  requests (trace (Starter.testConversation env svc tt)) = [request_3 env].
Proof.
  unfold Starter.testConversation. rewrite generateText_unfold.
  fold (request_3 env).
  destruct (completes svc (request_3 env)) as [[t u] | reason | ]; reflexivity.
Qed.

Lemma requests_testOpenAICompatProvider (env : gmap string string) (svc : service) :
  requests (trace (Starter.testOpenAICompatProvider env svc tt)) = [request_5 env].
Proof.
  unfold Starter.testOpenAICompatProvider. rewrite generateText_unfold.
  fold (request_5 env).
  destruct (completes svc (request_5 env)) as [[t u] | reason | ]; reflexivity.
Qed.

Lemma requests_testAlternativeModel (env : gmap string string) (svc : service) :
  requests (trace (Starter.testAlternativeModel env svc tt)) =
    if String.eqb (Starter.MODEL_ALT env) "" then [] else [request_6 env].
Proof.
  unfold Starter.testAlternativeModel. cbn [truthy]. rewrite negb_involutive.
  destruct (String.eqb (Starter.MODEL_ALT env) ""); first reflexivity.
  rewrite generateText_unfold. fold (request_6 env).
  destruct (completes svc (request_6 env)) as [[t u] | reason | ]; reflexivity.
Qed.

Lemma M_ext {A} (m : M A) (l : list event) (o : outcome A) :
  trace m = l → result m = o → m = (l, o).
Proof. destruct m. cbn. by intros -> ->. Qed.

(** X9: the streaming test writes its label first and then drains the
    stream (lazy, as the spec has it: the request goes out when the
    stream is read): every fragment delivered is written, in order and
    unchanged.  When the stream ends the closing newline is printed and
    the test passes, also when no fragment came at all; when reading the
    stream throws or never ends, the test ends the same way after the
    fragments already delivered, without the newline. *)
Theorem stream_test_writes_fragments_in_order (env : gmap string string)
    (svc : service) :
  Starter.testStreamText env svc tt =
    ([StdoutWrite "Streamed: "; Remote (request_2 env)] ++
     map StdoutWrite (fst (streams svc (request_2 env))) ++
     match snd (streams svc (request_2 env)) with
     | Fulfilled _ => [Console Out []]
     | _ => []
     end,
     match snd (streams svc (request_2 env)) with
     | Fulfilled _ => Returned tt
     | Rejected reason => Raised reason
     | Pending => Stuck
     end).
Proof.
  unfold Starter.testStreamText, streamText, for_await. fold (request_2 env).
  rewrite ret_bind. cbn [source fragments finish].
  destruct (streams svc (request_2 env)) as [chunks ending]. cbn [fst snd].
  apply M_ext.
  - rewrite !bind_trace, !bind_result. cbn [trace result fst snd stdout_write].
    rewrite ?bind_trace, ?bind_result.
    rewrite (for_each_write chunks (λ chunk, stdout_write chunk) (λ chunk, eq_refl)).
    cbn [trace result fst snd].
    destruct ending as [[] | reason | ]; cbn; by rewrite ?app_nil_r.
  - rewrite !bind_result. cbn [trace result fst snd stdout_write].
    rewrite ?bind_result.
    rewrite (for_each_write chunks (λ chunk, stdout_write chunk) (λ chunk, eq_refl)).
    cbn [trace result fst snd].
    by destruct ending as [[] | reason | ].
Qed.

Lemma requests_testStreamText (env : gmap string string) (svc : service) :
  requests (trace (Starter.testStreamText env svc tt)) = [request_2 env].
Proof.
  unfold Starter.testStreamText, streamText, for_await. fold (request_2 env).
  rewrite ret_bind. cbn [source fragments finish].
  destruct (streams svc (request_2 env)) as [chunks ending]. cbn [fst snd].
  rewrite !bind_trace, !bind_result. cbn [trace result fst snd stdout_write].
  rewrite ?bind_trace, ?bind_result.
  rewrite (for_each_write chunks (λ chunk, stdout_write chunk) (λ chunk, eq_refl)).
  cbn [trace result fst snd]. rewrite !requests_app, requests_writes.
  destruct ending as [[] | reason | ]; reflexivity.
Qed.

Lemma requests_none (l : list event) : remote_calls l = 0 → requests l = [].
Proof. rewrite remote_calls_requests. apply nil_length_inv. Qed.

(** The loop repeats one and the same request, once at least when it is
    allowed a round trip. *)
Lemma requests_tool_loop (svc : service) (req : request) (stepCount : nat)
    (steps : list step) :
  ∃ k : nat,
    (k ≤ stepCount)%nat ∧ (stepCount = 0 ∨ 1 ≤ k)%nat ∧
    requests
      (trace (tool_loop svc req {[ "getWeather" := Starter.getWeather ]} stepCount steps)) =
      replicate k req.
Proof.
  revert steps. induction stepCount as [ | remaining IH]; intros steps.
  - exists 0. split_and!; [done | by left | done].
  - cbn [tool_loop]. rewrite bind_trace. cbn [trace result fst snd].
    destruct (decides svc req steps) as [r | reason | ]; cbn [await].
    + rewrite ret_bind, bind_trace.
      destruct (call_tools_getWeather (toolCalls r)) as (Hcalls & _ & os & Hres).
      rewrite Hres, requests_app. cbn [requests]. rewrite requests_app.
      rewrite (requests_none _ Hcalls). cbn [app].
      destruct (toolCalls r) as [ | tc more].
      * exists 1. split_and!; [lia | right; lia | done].
      * destruct (IH (steps ++ [Step r os])) as (k & Hk & _ & ->).
        exists (S k). split_and!; [lia | right; lia | done].
    + exists 1. split_and!; [lia | right; lia | done].
    + exists 1. split_and!; [lia | right; lia | done].
Qed.

Lemma requests_testToolCalling (env : gmap string string) (svc : service) :
  ∃ k : nat,
    (1 ≤ k ≤ 5)%nat ∧
    requests (trace (Starter.testToolCalling env svc tt)) =
      replicate k (request_4 env).
Proof.
  destruct (testToolCalling_unfold env svc) as (after & Hafter & ->).
  destruct (requests_tool_loop svc (request_4 env) Starter.stepCount [])
    as (k & Hk & [Hzero | Hone] & Hreq); first done.
  exists k. split; first (change Starter.stepCount with 5 in Hk; lia).
  fold (request_4 env).
  destruct (tool_loop _ _ _ _ _) as [l [steps | err | code | ]];
    cbn [trace fst] in *; try done.
  by rewrite requests_app, Hreq, (requests_none _ (proj1 (Hafter steps))), app_nil_r.
Qed.

(** The requests of a run are a beginning of the plan. *)
Lemma requests_starter_run (env : gmap string string) (svc : service) :
  ∃ k : nat,
    (1 ≤ k ≤ 5)%nat ∧
    requests (fst (run_process (Starter.script env svc))) `prefix_of` planned env k.
Proof.
  destruct (requests_testToolCalling env svc) as (k & Hk & Htool).
  exists k. split; first done.
  unfold Starter.script. rewrite requests_starter_script.
  destruct (configured env); last apply prefix_nil.
  etrans; first apply requests_run_tests.
  unfold Starter.tests. cbn [map concat fst snd].
  rewrite requests_testGenerateText, requests_testStreamText,
    requests_testConversation, Htool, requests_testOpenAICompatProvider,
    requests_testAlternativeModel.
  unfold planned. cbn [app]. by rewrite app_nil_r.
Qed.

(** X10: the requests a run of the starter kit makes of the SDK, in
    order (what the SDK repeats on its own is not counted): one for each
    of the first three tests, between one and five round trips for the
    tool-calling test (its loop as the SDK bounds it), one for the
    compatible provider, and one for the alternative model unless it is
    unset.  A run that stops early makes a beginning of that sequence.
    No request ever names an empty model. *)
Theorem requests_follow_the_plan (env : gmap string string) (svc : service) :
  ∃ k : nat,
    (1 ≤ k ≤ 5)%nat ∧
    requests (fst (run_process (Starter.script env svc))) `prefix_of` planned env k ∧
    Forall (λ r, model r ≠ "")
      (requests (fst (run_process (Starter.script env svc)))).
Proof.
  destruct (requests_starter_run env svc) as (k & Hk & Hprefix).
  exists k. split_and!; [lia | lia | done | ].
  destruct Hprefix as [rest Hplan].
  assert (Forall (λ r, model r ≠ "") (planned env k)) as Hmodels.
  { assert (Starter.MODEL_GPT env ≠ "") as Hgpt.
    { unfold Starter.MODEL_GPT, env_or.
      by destruct (env !! "AZURE_MODEL_GPT") as [[ | c s] | ]. }
    unfold planned. repeat (apply Forall_app; split).
    - by repeat constructor.
    - by apply Forall_replicate.
    - by repeat constructor.
    - destruct (String.eqb (Starter.MODEL_ALT env) "") eqn:Halt; first constructor.
      repeat constructor. cbn. by apply String.eqb_neq. }
  rewrite Hplan in Hmodels. by apply Forall_app in Hmodels as [? _].
Qed.

(** X11: a run of the starter kit makes at most ten requests of the SDK
    (round trips of the tool-call loop included, repeats inside the SDK
    not counted), and at most nine when the alternative model is unset or
    empty. *)
Theorem at_most_ten_requests (env : gmap string string) (svc : service) :
  (remote_calls (fst (run_process (Starter.script env svc))) ≤
   if String.eqb (Starter.MODEL_ALT env) "" then 9 else 10)%nat.
Proof.
  destruct (requests_starter_run env svc) as (k & Hk & Hprefix).
  rewrite remote_calls_requests. apply prefix_length in Hprefix.
  etrans; first exact Hprefix.
  unfold planned. rewrite !length_app, length_replicate. cbn [length].
  destruct (String.eqb (Starter.MODEL_ALT env) ""); cbn [length]; lia.
Qed.

(** ** Single tests under [runTest] *)

Lemma model_alt_set (env : gmap string string) :
  provided (env !! "AZURE_MODEL_ALT") = true →
  env !! "AZURE_MODEL_ALT" = Some (Starter.MODEL_ALT env) ∧
  String.eqb (Starter.MODEL_ALT env) "" = false.
Proof.
  unfold Starter.MODEL_ALT, env_or.
  by destruct (env !! "AZURE_MODEL_ALT") as [[ | c s] | ].
Qed.

(** X12: when [AZURE_MODEL_ALT] holds a non-empty string, the
    alternative-model test does not skip: it sends exactly one request,
    through the Foundry provider and naming that very string as the
    model, and it is fulfilled, rejected or left pending as that request
    is; the model and the response are printed only when it is
    fulfilled. *)
Theorem alternative_model_is_asked_when_set (env : gmap string string)
    (svc : service) :
  provided (env !! "AZURE_MODEL_ALT") = true →
  env !! "AZURE_MODEL_ALT" = Some (model (request_6 env)) ∧
  Starter.testAlternativeModel env svc tt =
    match completes svc (request_6 env) with
    | Fulfilled g =>
        ([ Remote (request_6 env);
           Console Out [VStr ("Model: " +:+ Starter.MODEL_ALT env)];
           Console Out [VStr "Response:"; VStr (text g)] ],
         Returned tt)
    | Rejected reason => ([Remote (request_6 env)], Raised reason)
    | Pending => ([Remote (request_6 env)], Stuck)
    end.
Proof.
  intros Hset. destruct (model_alt_set env Hset) as [Henv Halt].
  split; first exact Henv.
  unfold Starter.testAlternativeModel. cbn [truthy].
  rewrite negb_involutive, Halt, generateText_unfold. fold (request_6 env).
  by destruct (completes svc (request_6 env)) as [[t u] | reason | ].
Qed.

Lemma alternative_model_is_asked_when_set_witness :
  provided (Runs.env_alt !! "AZURE_MODEL_ALT") = true ∧
  requests (trace (Starter.testAlternativeModel Runs.env_alt Scenario.svc_answers tt)) =
    [Request AzureFoundry "Kimi-K2.5"
       (Prompt "What model are you? Reply in one sentence.")].
Proof.
  split; [reflexivity | ].
  rewrite (proj2 (alternative_model_is_asked_when_set Runs.env_alt
                    Scenario.svc_answers eq_refl)).
  reflexivity.
Defined.

(** X13: a failure of the remote service reaches the report unchanged.
    When the completion of the first test is rejected with an Error, the
    test prints nothing after its request, [runTest] returns false, and
    standard error shows the FAILED line, the message of that Error (its
    class name when the message is empty) and its cause when truthy. *)
Theorem rejected_completion_is_reported (env : gmap string string)
    (svc : service) (class message : string) (cause : value) :
  completes svc (request_1 env) = Rejected (VError class message cause) →
  runTest "1. Generate Text (Foundry Provider)" (Starter.testGenerateText env svc) =
    (trace (divider "1. Generate Text (Foundry Provider)") ++
     [ Remote (request_1 env);
       Console Err [VStr (LF +:+ "❌  1. Generate Text (Foundry Provider) — FAILED")];
       Console Err
         [VStr ("    " +:+ (if String.eqb message "" then class else message))] ]
     ++ (if truthy cause then [Console Err [VStr "    Cause:"; cause]] else []),
     Returned false).
Proof.
  intros Hrejected. rewrite runTest_unfold.
  unfold Starter.testGenerateText. rewrite generateText_unfold.
  fold (request_1 env). rewrite Hrejected, bind_raised.
  rewrite runTest_catch_defined; last done.
  cbn [trace result fst snd app]. f_equal. f_equal. f_equal. f_equal. f_equal.
  destruct message as [ | c m]; last reflexivity.
  cbn. by destruct class.
Qed.

Lemma rejected_completion_is_reported_witness :
  completes Runs.svc_denies (request_1 Scenario.env_set) =
    Rejected (VError "APICallError" "Unauthorized" (VStr "401")) ∧
  stderr (trace (runTest "1. Generate Text (Foundry Provider)"
                   (Starter.testGenerateText Scenario.env_set Runs.svc_denies))) =
    [ [VStr (LF +:+ "❌  1. Generate Text (Foundry Provider) — FAILED")];
      [VStr "    Unauthorized"];
      [VStr "    Cause:"; VStr "401"] ].
Proof.
  split; [reflexivity | ].
  rewrite (rejected_completion_is_reported Scenario.env_set Runs.svc_denies
             "APICallError" "Unauthorized" (VStr "401") eq_refl).
  reflexivity.
Defined.

(** ** The weather tool *)

(** X14: what the schema of [getWeather] accepts.  An input is accepted
    exactly when its location is a string and its unit is left out,
    undefined, celsius or fahrenheit; the accepted input carries the
    location unchanged, and the unit fahrenheit exactly when the input
    said so. *)
Theorem getWeather_schema_accepts (raw : gmap string value) :
  match Starter.getWeather_inputSchema raw with
  | Some i =>
      raw !! "location" = Some (VStr (Starter.location i)) ∧
      unit_accepted (raw !! "unit") = true ∧
      (Starter.unit_ i = Some Starter.fahrenheit ↔
       raw !! "unit" = Some (VStr "fahrenheit"))
  | None =>
      location_accepted (raw !! "location") && unit_accepted (raw !! "unit") = false
  end.
Proof.
  unfold Starter.getWeather_inputSchema.
  destruct (raw !! "location") as [[ | | b | s | items | class m c] | ]; try done.
  destruct (raw !! "unit") as [[ | | b | u | items | class m c] | ]; try done;
    cbn [Starter.location Starter.unit_ unit_accepted location_accepted andb].
  destruct (String.eqb u "celsius") eqn:Hc.
  - apply String.eqb_eq in Hc as ->. repeat split; done.
  - destruct (String.eqb u "fahrenheit") eqn:Hf; last done.
    apply String.eqb_eq in Hf as ->. repeat split; done.
Qed.

(** X15: the schema looks at the location and the unit only: adding or
    changing any other key of the input does not change what it
    returns. *)
Theorem getWeather_schema_ignores_other_keys (raw : gmap string value)
    (key : string) (v : value) :
  key ≠ "location" →
  key ≠ "unit" →
  Starter.getWeather_inputSchema (<[ key := v ]> raw) =
    Starter.getWeather_inputSchema raw.
Proof.
  intros Hlocation Hunit. unfold Starter.getWeather_inputSchema.
  by rewrite !lookup_insert_ne.
Qed.

Lemma getWeather_schema_ignores_other_keys_witness :
  "verbose" ≠ "location" ∧ "verbose" ≠ "unit" ∧
  Starter.getWeather_inputSchema
    (<[ "verbose" := VBool true ]> {[ "location" := VStr "Tokyo" ]}) =
    Some {| Starter.location := "Tokyo"; Starter.unit_ := None |}.
Proof.
  split; [discriminate | ]. split; [discriminate | ].
  rewrite (getWeather_schema_ignores_other_keys {[ "location" := VStr "Tokyo" ]}
             "verbose" (VBool true)); [reflexivity | discriminate | discriminate].
Defined.

Lemma lower_idempotent (c : Ascii.ascii) :
  Starter.lower (Starter.lower c) = Starter.lower c.
Proof. by destruct c as [[] [] [] [] [] [] [] []]. Qed.

Lemma toLowerCase_idempotent (s : string) :
  Starter.toLowerCase (Starter.toLowerCase s) = Starter.toLowerCase s.
Proof.
  induction s as [ | c s IH]; first done.
  cbn [Starter.toLowerCase]. by rewrite lower_idempotent, IH.
Qed.

(** X16: for a location of ASCII characters that does not lower to the
    name of an inherited property (constructor, __proto__), which is
    where the model of the callback agrees with the source: the callback
    of [getWeather] answers with the location as it was given, followed
    by a report that does not depend on the case of its letters; and
    leaving the unit out gives the same answer as asking for celsius. *)
Theorem getWeather_ignores_letter_case (location : string)
    (unit_ : option Starter.temperature_unit) :
  ascii_only location = true →
  inherited_name (Starter.toLowerCase location) = false →
  ∃ report : string,
    Starter.getWeather_execute
      {| Starter.location := location; Starter.unit_ := unit_ |} =
      mret (location +:+ report) ∧
    Starter.getWeather_execute
      {| Starter.location := Starter.toLowerCase location; Starter.unit_ := unit_ |} =
      mret (Starter.toLowerCase location +:+ report) ∧
    Starter.getWeather_execute
      {| Starter.location := location; Starter.unit_ := None |} =
    Starter.getWeather_execute
      {| Starter.location := location; Starter.unit_ := Some Starter.celsius |}.
Proof.
  intros _ _. eexists. split_and!.
  - reflexivity.
  - unfold Starter.getWeather_execute. cbn [Starter.location Starter.unit_].
    by rewrite toLowerCase_idempotent.
  - reflexivity.
Qed.

Lemma getWeather_ignores_letter_case_witness :
  ascii_only "TOKYO" = true ∧
  inherited_name (Starter.toLowerCase "TOKYO") = false ∧
  ∃ report : string,
    Starter.getWeather_execute
      {| Starter.location := "TOKYO"; Starter.unit_ := Some Starter.fahrenheit |} =
      mret ("TOKYO" +:+ report) ∧
    Starter.getWeather_execute
      {| Starter.location := "tokyo"; Starter.unit_ := Some Starter.fahrenheit |} =
      mret ("tokyo" +:+ report) ∧
    Starter.getWeather_execute
      {| Starter.location := "TOKYO"; Starter.unit_ := None |} =
    Starter.getWeather_execute
      {| Starter.location := "TOKYO"; Starter.unit_ := Some Starter.celsius |}.
Proof.
  split; [reflexivity | ]. split; [reflexivity | ].
  exact (getWeather_ignores_letter_case "TOKYO" (Some Starter.fahrenheit)
           eq_refl eq_refl).
Defined.

(** ** The summary count *)

(** X17: the count of the summary never exceeds the number of results,
    and equals it exactly when no entry failed. *)
Theorem count_passed_is_total_iff_all_passed (results : list TestResult) :
  (count_passed results ≤ length results)%nat ∧
  (count_passed results = length results ↔
   Forall (λ r, passed r = true) results).
Proof.
  unfold count_passed. induction results as [ | r rest [IHle IHiff]].
  - split; [done | ]. split; [constructor | done].
  - cbn [List.filter]. destruct (passed r) eqn:Hr; cbn [length].
    + split; first lia. split.
      * intros Heq. constructor; first done. apply IHiff. lia.
      * intros Hall. apply Forall_cons in Hall as [_ Hall].
        apply IHiff in Hall. lia.
    + split; first lia. split.
      * intros Heq. lia.
      * intros Hall. apply Forall_cons in Hall as [Hfalse _]. congruence.
Qed.

(** ** The enhanced suite *)

(** X18: the cross-provider test asks the GPT model first and the Kimi
    model second, with the same prompt; the second request is sent only
    when the first was fulfilled; and when both are fulfilled the test
    prints both answers and its verified line and passes, whatever the
    two answers are: they are never compared. *)
Theorem cross_provider_asks_gpt_then_kimi (env : gmap string string)
    (svc : service) (trim : string → string) :
  FluxSuite.testCrossProviderCompatibility env svc trim tt =
    match completes svc (Request AzureFoundry (Flux.MODEL_GPT env)
                           (Prompt "What is 2+2? Reply with just the number.")) with
    | Fulfilled gpt =>
        match completes svc (Request AzureFoundry (Flux.MODEL_KIMI env)
                               (Prompt "What is 2+2? Reply with just the number.")) with
        | Fulfilled kimi =>
            ([ Remote (Request AzureFoundry (Flux.MODEL_GPT env)
                         (Prompt "What is 2+2? Reply with just the number."));
               Remote (Request AzureFoundry (Flux.MODEL_KIMI env)
                         (Prompt "What is 2+2? Reply with just the number."));
               Console Out [VStr ("GPT-5.2 response: " +:+ trim (text gpt))];
               Console Out [VStr ("Kimi K2.5 response: " +:+ trim (text kimi))];
               Console Out [VStr "✅ Cross-provider compatibility verified"] ],
             Returned tt)
        | Rejected reason =>
            ([ Remote (Request AzureFoundry (Flux.MODEL_GPT env)
                         (Prompt "What is 2+2? Reply with just the number."));
               Remote (Request AzureFoundry (Flux.MODEL_KIMI env)
                         (Prompt "What is 2+2? Reply with just the number.")) ],
             Raised reason)
        | Pending =>
            ([ Remote (Request AzureFoundry (Flux.MODEL_GPT env)
                         (Prompt "What is 2+2? Reply with just the number."));
               Remote (Request AzureFoundry (Flux.MODEL_KIMI env)
                         (Prompt "What is 2+2? Reply with just the number.")) ],
             Stuck)
        end
    | Rejected reason =>
        ([ Remote (Request AzureFoundry (Flux.MODEL_GPT env)
                     (Prompt "What is 2+2? Reply with just the number.")) ],
         Raised reason)
    | Pending =>
        ([ Remote (Request AzureFoundry (Flux.MODEL_GPT env)
                     (Prompt "What is 2+2? Reply with just the number.")) ],
         Stuck)
    end.
Proof.
  unfold FluxSuite.testCrossProviderCompatibility.
  rewrite !generateText_unfold.
  destruct (completes svc (Request AzureFoundry (Flux.MODEL_GPT env) _))
    as [gpt | reason | ]; try done.
  rewrite bind_returned.
  by destruct (completes svc (Request AzureFoundry (Flux.MODEL_KIMI env) _))
    as [kimi | reason | ].
Qed.

(** X19: each of the five single-request tests of the enhanced suite
    makes exactly one request of the SDK, whatever the service answers:
    the test itself never asks a second time.  The Kimi tests name the
    Kimi model, the others the GPT model, all through the Foundry
    provider. *)
Theorem enhanced_tests_send_one_request (env : gmap string string)
    (svc : service) :
  requests (trace (FluxSuite.testEndpointValidation env svc tt)) =
    [Request AzureFoundry (Flux.MODEL_GPT env)
       (Prompt "Say 'endpoint validation successful'")] ∧
  requests (trace (FluxSuite.testGPT52 env svc tt)) =
    [Request AzureFoundry (Flux.MODEL_GPT env)
       (Prompt "Explain what Azure AI Foundry is in 2 sentences.")] ∧
  requests (trace (FluxSuite.testKimiK25 env svc tt)) =
    [Request AzureFoundry (Flux.MODEL_KIMI env)
       (Prompt "Write a haiku about artificial intelligence.")] ∧
  requests (trace (FluxSuite.testStreamingKimi env svc tt)) =
    [Request AzureFoundry (Flux.MODEL_KIMI env)
       (Prompt "Write a short poem about machine learning.")] ∧
  requests (trace (FluxSuite.testConversation env svc tt)) =
    [Request AzureFoundry (Flux.MODEL_GPT env)
       (Messages
          [ Message "system" "You are a helpful AI assistant. Be concise.";
            Message "user" "What is the Vercel AI SDK?";
            Message "assistant" "The Vercel AI SDK is a TypeScript toolkit for building AI-powered apps with React, Next.js, and other frameworks.";
            Message "user" "How does it connect to Azure AI Foundry? Reply in 2-3 sentences." ])].
Proof.
  split_and!.
  - unfold FluxSuite.testEndpointValidation, console_log.
    rewrite !bind_returned, generateText_unfold.
    by destruct (completes svc _) as [[t u] | reason | ].
  - unfold FluxSuite.testGPT52. rewrite generateText_unfold.
    by destruct (completes svc _) as [[t [u | ]] | reason | ].
  - unfold FluxSuite.testKimiK25. rewrite generateText_unfold.
    by destruct (completes svc _) as [[t [u | ]] | reason | ].
  - unfold FluxSuite.testStreamingKimi, streamText, for_await.
    rewrite ret_bind. cbn [source fragments finish].
    destruct (streams svc _) as [chunks ending]. cbn [fst snd].
    rewrite !bind_trace, !bind_result. cbn [trace result fst snd stdout_write].
    rewrite ?bind_trace, ?bind_result.
    rewrite (for_each_write chunks (λ chunk, stdout_write chunk) (λ chunk, eq_refl)).
    cbn [trace result fst snd]. rewrite !requests_app, requests_writes.
    by destruct ending as [[] | reason | ].
  - unfold FluxSuite.testConversation. rewrite generateText_unfold.
    by destruct (completes svc _) as [[t u] | reason | ].
Qed.

(** X20: the enhanced suite, for every environment and whatever its eight
    tests are.  It exits with 1 and one diagnostic when the configuration
    is missing, and otherwise with 0 after four lines of banner and the
    ReferenceError; in neither case does any event of a test, a request
    in particular, reach the trace. *)
Theorem enhanced_suite_never_starts_a_test (env : gmap string string)
    (t1 t2 t3 t4 t5 t6 t7 t8 : unit → M unit) :
  snd (run_process (Flux.script env t1 t2 t3 t4 t5 t6 t7 t8)) =
    ExitCode (if configured env then 0 else 1) ∧
  length (fst (run_process (Flux.script env t1 t2 t3 t4 t5 t6 t7 t8))) =
    (if configured env then 5 else 1) ∧
  requests (fst (run_process (Flux.script env t1 t2 t3 t4 t5 t6 t7 t8))) = [] ∧
  Forall (λ e, match e with Console _ _ => True | _ => False end)
    (fst (run_process (Flux.script env t1 t2 t3 t4 t5 t6 t7 t8))).
Proof.
  destruct (configured env) eqn:Hset.
  - rewrite (flux_script_configured env _ _ _ _ _ _ _ _ Hset).
    split_and!; try reflexivity. cbn. by repeat constructor.
  - unfold configured in Hset.
    unfold Flux.script, Flux.AZURE_ENDPOINT, Flux.AZURE_API_KEY.
    rewrite !truthy_of_env.
    destruct (provided (env !! "AZURE_API_ENDPOINT")),
             (provided (env !! "AZURE_API_KEY")); try done;
      (split_and!; try reflexivity; cbn; by repeat constructor).
Qed.
